(** * Budget circuit breaker Lambda: a shallow embedding and its properties

    Source: [infra/github-runners/lambda/budget_circuit_breaker.py].

    The Lambda is a straight-line chain of calls into the outside world
    (process environment, SSM parameter store, wall clock, PyJWT, the GitHub
    REST API through [urllib]).  Each function of the module is embedded as
    a computation in a small monad that threads the chronological log of
    every interaction (with its outcome) and propagates Python exceptions.

    Modelling conventions:
    - a Python [str] is a [string] whose characters are the code points
      0..255 of the text; [bytes] is [list byte];
    - a Python [int] is a [Z] (unbounded);
    - binary64 floats are kept abstract (class [Float]); the operations the
      program applies to them ([int(...)], [repr]) belong to [PyRuntime];
    - library functions that are pure ([jwt.encode], [json.loads], [str] on
      objects that are not strings) belong to [PyRuntime] as well: the
      RS256 signature (RSASSA-PKCS1-v1_5) draws no randomness;
    - everything that depends on the outside world is a field of [World] and
      may answer differently depending on the history of the invocation. *)

From Stdlib Require Import ZArith List String Ascii Lia.
From Stdlib Require Import Strings.Byte QArith_base.
From stdpp Require Import base strings gmap list pretty.
Import ListNotations.

Set Warnings "-register-all".

Local Open Scope Z_scope.
Local Open Scope string_scope.
Local Open Scope list_scope.

(** ** Exceptions and outcomes *)

Inductive exn : Type :=
| KeyError (key : string)
| TypeError (msg : string)
| HTTPError (code : Z)
| URLError (reason : string)
| ClientError (code : string)
| JSONDecodeError (msg : string)
| InvalidKeyError (msg : string)
| OtherError (cls msg : string).

Inductive result (A : Type) : Type :=
| Ok (a : A)
| Raise (e : exn).

Arguments Ok {A} a.
Arguments Raise {A} e.

Definition is_ok {A : Type} (r : result A) : bool :=
  match r with Ok _ => true | Raise _ => false end.

(** ** Python objects that travel through the handler *)

(** The type of binary64 floating-point numbers. *)
Class Float : Type := float : Type.

Section Objects.

Context `{Float}.

(** JSON-shaped Python objects: [None], [bool], [int], [float], [str],
    [list] and [dict] with string keys (in insertion order). *)
Inductive json : Type :=
| JNull
| JBool (b : bool)
| JInt (n : Z)
| JFloat (f : float)
| JStr (s : string)
| JArr (items : list json)
| JObj (fields : list (string * json)).

(** [d[key]] on an insertion-ordered dict. *)
Fixpoint dict_get (fields : list (string * json)) (key : string) : option json :=
  match fields with
  | [] => None
  | (k, v) :: rest => if String.eqb k key then Some v else dict_get rest key
  end.

(** [obj[key]] for a string key: only a dict can answer; every other
    JSON-shaped object raises [TypeError]. *)
Definition getitem (obj : json) (key : string) : result json :=
  match obj with
  | JObj fields =>
      match dict_get fields key with
      | Some v => Ok v
      | None => Raise (KeyError key)
      end
  | JStr _ => Raise (TypeError "string indices must be integers")
  | JArr _ => Raise (TypeError "list indices must be integers or slices")
  | JNull => Raise (TypeError "'NoneType' object is not subscriptable")
  | JBool _ => Raise (TypeError "'bool' object is not subscriptable")
  | JInt _ => Raise (TypeError "'int' object is not subscriptable")
  | JFloat _ => Raise (TypeError "'float' object is not subscriptable")
  end.

(** *** [json.dumps] with its default settings *)

Definition hex_digit (n : N) : ascii :=
  if (n <? 10)%N then ascii_of_N (48 + n) else ascii_of_N (87 + n).

(** ["\u00XX"] for a code point below 256. *)
Definition u_escape (c : ascii) : string :=
  let n := N_of_ascii c in
  "\u00" +:+ String (hex_digit (n / 16)) (String (hex_digit (n mod 16)) EmptyString).

(** One character of [encode_basestring_ascii]: backslash and the double
    quote are escaped, the five short escapes are used, and everything
    outside [' ' .. '~'] becomes a [\u] escape. *)
Definition escape_char (c : ascii) : string :=
  let n := N_of_ascii c in
  if (n =? 92)%N then "\\"
  else if (n =? 34)%N then String "\" (String (ascii_of_N 34) EmptyString)
  else if (n =? 8)%N then "\b"
  else if (n =? 12)%N then "\f"
  else if (n =? 10)%N then "\n"
  else if (n =? 13)%N then "\r"
  else if (n =? 9)%N then "\t"
  else if ((32 <=? n) && (n <=? 126))%N then String c EmptyString
  else u_escape c.

Fixpoint escape_string (s : string) : string :=
  match s with
  | EmptyString => EmptyString
  | String c rest => escape_char c +:+ escape_string rest
  end.

Definition dquote : string := String (ascii_of_N 34) EmptyString.

Definition encode_basestring_ascii (s : string) : string :=
  dquote +:+ escape_string s +:+ dquote.

Fixpoint join (sep : string) (parts : list string) : string :=
  match parts with
  | [] => EmptyString
  | [p] => p
  | p :: rest => p +:+ sep +:+ join sep rest
  end.

Variable float_repr : float -> string.

Fixpoint json_dumps (v : json) : string :=
  let fix dumps_items (items : list json) : list string :=
    match items with
    | [] => []
    | x :: rest => json_dumps x :: dumps_items rest
    end in
  let fix dumps_fields (fields : list (string * json)) : list string :=
    match fields with
    | [] => []
    | (k, x) :: rest =>
        (encode_basestring_ascii k +:+ ": " +:+ json_dumps x) :: dumps_fields rest
    end in
  match v with
  | JNull => "null"
  | JBool true => "true"
  | JBool false => "false"
  | JInt n => pretty n
  | JFloat f => float_repr f
  | JStr s => encode_basestring_ascii s
  | JArr items => "[" +:+ join ", " (dumps_items items) +:+ "]"
  | JObj fields => "{" +:+ join ", " (dumps_fields fields) +:+ "}"
  end.

(** *** [str.encode()] (UTF-8) on code points below 256 *)

Definition byte_of_N (n : N) : byte := byte_of_ascii (ascii_of_N n).

Definition encode_char (c : ascii) : list byte :=
  let n := N_of_ascii c in
  if (n <? 128)%N then [byte_of_N n]
  else [byte_of_N (192 + n / 64); byte_of_N (128 + n mod 64)].

Fixpoint str_encode (s : string) : list byte :=
  match s with
  | EmptyString => []
  | String c rest => encode_char c ++ str_encode rest
  end.

(** *** Formatting inside an f-string *)

Variable builtin_str : json -> string.

(** [f"{x}"] is [str(x)]: the text itself for a [str], the builtin's
    rendering for any other object. *)
Definition format_value (x : json) : string :=
  match x with
  | JStr s => s
  | other => builtin_str other
  end.

(** *** Objects exchanged with the outside world *)

(** What [boto3.client(service, region_name=...)] hands back. *)
Record Client : Type := {
  service_name : string;
  region_name : string;
}.

(** The [Parameter] member of a [GetParameter] response. *)
Record SsmParameter : Type := {
  Name : string;
  Value : string;
}.

Record GetParameterResult : Type := { Parameter_ : SsmParameter }.

(** The arguments given to [urllib.request.Request]. *)
Record Request : Type := {
  full_url : string;
  method : string;
  data : option (list byte);
  headers : list (string * string);
}.

(** What [urlopen] yields: the status line and the outcome of [read()]. *)
Record Response : Type := {
  status : Z;
  read : result (list byte);
}.

(** *** The log of an invocation: every interaction with its outcome *)

Inductive log_entry : Type :=
| Printed (line : string)
| Getenv (key : string) (r : result string)
| Boto3Client (service region : string) (r : result Client)
| GetParameter (c : Client) (name : string) (decrypt : bool)
               (r : result GetParameterResult)
| TimeTime (t : float)
| JwtEncode (payload : json) (key algorithm : string) (r : result string)
| Urlopen (req : Request) (r : result Response).

(** *** The outside world

    Every service may answer according to what happened so far in the
    invocation (the log), so stateful or flaky services are covered. *)
Record World : Type := {
  (** [os.environ] *)
  environ : gmap string string;
  (** [boto3.client]: [Some e] when building the client raises [e] *)
  boto3_client_error : list log_entry -> string -> string -> option exn;
  (** [client.get_parameter(Name=..., WithDecryption=...)] *)
  get_parameter : list log_entry -> Client -> string -> bool -> result GetParameterResult;
  (** [time.time()] *)
  time_time : list log_entry -> float;
  (** [urllib.request.urlopen]; it raises [HTTPError] when the final
      status is not a success status, [URLError] when the peer cannot be
      reached *)
  urlopen : list log_entry -> Request -> result Response;
}.

End Objects.

(** ** The Python runtime and the pure library functions the module calls *)

Class PyRuntime : Type := {
  (** binary64 floating-point numbers *)
  runtime_float :: Float;
  (** [int(x)] on a float *)
  int_of_float : float -> Z;
  (** [float.__repr__], used by [json.dumps] *)
  float_repr : float -> string;
  (** [str(x)] on an object that is not a [str] *)
  builtin_str : json -> string;
  (** [jwt.encode(payload, key, algorithm=...)] *)
  jwt_encode : json -> string -> string -> result string;
  (** [json.loads] on [bytes] *)
  json_loads : list byte -> result json;
}.

Section Program.

Context `{PyRuntime}.

Abbreviation pyobj := json.

(** *** The monad: read the world, extend the log, propagate exceptions *)

Definition M (A : Type) : Type := World -> list log_entry -> result A * list log_entry.

Definition ret {A : Type} (a : A) : M A := fun _ tr => (Ok a, tr).

Definition bind {A B : Type} (m : M A) (k : A -> M B) : M B :=
  fun w tr =>
    match m w tr with
    | (Ok a, tr') => k a w tr'
    | (Raise e, tr') => (Raise e, tr')
    end.

(** Lift a pure fallible computation. *)
Definition lift {A : Type} (r : result A) : M A := fun _ tr => (r, tr).

(** Ask the world, log the question with its answer. *)
Definition call {A : Type} (ask : World -> list log_entry -> result A)
           (mk : result A -> log_entry) : M A :=
  fun w tr => let r := ask w tr in (r, tr ++ [mk r]).

Notation "x <- m ;; k" := (bind m (fun x => k))
  (at level 100, m at next level, right associativity, only parsing).
Notation "m ;;; k" := (bind m (fun _ => k))
  (at level 100, right associativity, only parsing).

(** *** Primitive interactions *)

(** [print(line)] *)
Definition print (line : string) : M unit :=
  fun _ tr => (Ok tt, tr ++ [Printed line]).

(** [os.environ[key]]: [KeyError] when the variable is not set. *)
Definition getenv (w : World) (key : string) : result string :=
  match environ w !! key with
  | Some v => Ok v
  | None => Raise (KeyError key)
  end.

Definition environ_getitem (key : string) : M string :=
  call (fun w _ => getenv w key) (Getenv key).

(** [boto3.client(service, region_name=region)] *)
Definition make_client (w : World) (tr : list log_entry) (service region : string)
  : result Client :=
  match boto3_client_error w tr service region with
  | Some e => Raise e
  | None => Ok {| service_name := service; region_name := region |}
  end.

Definition boto3_client (service region : string) : M Client :=
  call (fun w tr => make_client w tr service region) (Boto3Client service region).

(** [client.get_parameter(Name=name, WithDecryption=decrypt)] *)
Definition client_get_parameter (c : Client) (name : string) (decrypt : bool)
  : M GetParameterResult :=
  call (fun w tr => get_parameter w tr c name decrypt) (GetParameter c name decrypt).

(** [time.time()] *)
Definition time_now : M float :=
  fun w tr => let t := time_time w tr in (Ok t, tr ++ [TimeTime t]).

(** [jwt.encode(payload, key, algorithm=algorithm)] *)
Definition jwt_encode_call (payload : pyobj) (key algorithm : string) : M string :=
  call (fun _ _ => jwt_encode payload key algorithm) (JwtEncode payload key algorithm).

(** [urllib.request.urlopen(req)] *)
Definition urlopen_call (req : Request) : M Response :=
  call (fun w tr => urlopen w tr req) (Urlopen req).

(** *** The functions of [budget_circuit_breaker.py] *)

(** [get_ssm_parameter(name, decrypt=False)]; [None] stands for an omitted
    [decrypt] argument. *)
Definition get_ssm_parameter (name : string) (decrypt : option bool) : M string :=
  let decrypt := match decrypt with Some b => b | None => false end in
  region <- environ_getitem "APP_AWS_REGION" ;;
  ssm <- boto3_client "ssm" region ;;
  response <- client_get_parameter ssm name decrypt ;;
  ret (Value (Parameter_ response)).

Definition generate_jwt (app_id private_key_pem : string) : M string :=
  t <- time_now ;;
  let now := int_of_float t in
  jwt_encode_call
    (JObj [("iat", JInt (now - 60)); ("exp", JInt (now + 600)); ("iss", JStr app_id)])
    private_key_pem
    "RS256".

(** [json.loads(resp.read())["token"]], the body of the [with] block of
    [get_installation_token]. *)
Definition response_token (resp : Response) : result pyobj :=
  match read resp with
  | Raise e => Raise e
  | Ok body =>
      match json_loads body with
      | Raise e => Raise e
      | Ok parsed => getitem parsed "token"
      end
  end.

Definition get_installation_token (jwt_token installation_id : string) : M pyobj :=
  let req :=
    {| full_url := "https://api.github.com/app/installations/" +:+ installation_id
                   +:+ "/access_tokens";
       method := "POST";
       data := None;
       headers := [("Authorization", "Bearer " +:+ jwt_token);
                   ("Accept", "application/vnd.github+json");
                   ("X-GitHub-Api-Version", "2022-11-28")] |} in
  resp <- urlopen_call req ;;
  lift (response_token resp).

Definition disable_self_hosted_runners (token : pyobj) (owner repo : string) : M unit :=
  let data := str_encode (json_dumps float_repr (JObj [("value", JStr "false")])) in
  let req :=
    {| full_url := "https://api.github.com/repos/" +:+ owner +:+ "/" +:+ repo
                   +:+ "/actions/variables/SELF_HOSTED_ENABLED";
       method := "PATCH";
       data := Some data;
       headers := [("Authorization", "Bearer " +:+ format_value builtin_str token);
                   ("Accept", "application/vnd.github+json");
                   ("Content-Type", "application/json");
                   ("X-GitHub-Api-Version", "2022-11-28")] |} in
  resp <- urlopen_call req ;;
  print ("GitHub variable updated: " +:+ pretty (status resp)).

(** [event] is the JSON document the trigger delivers, so [json.dumps]
    cannot fail on it; [context] is not used. *)
Definition handler {C : Type} (event : pyobj) (context : C) : M pyobj :=
  print ("Budget alert triggered: " +:+ json_dumps float_repr event) ;;;
  prefix <- environ_getitem "PREFIX" ;;
  app_id <- get_ssm_parameter ("/" +:+ prefix +:+ "/github-app-id") None ;;
  private_key <- get_ssm_parameter ("/" +:+ prefix +:+ "/github-app-key") (Some true) ;;
  installation_id <-
    get_ssm_parameter ("/" +:+ prefix +:+ "/github-app-installation-id") None ;;
  jwt_token <- generate_jwt app_id private_key ;;
  token <- get_installation_token jwt_token installation_id ;;
  owner <- environ_getitem "GITHUB_OWNER" ;;
  repo <- environ_getitem "GITHUB_REPO" ;;
  disable_self_hosted_runners token owner repo ;;;
  print ("Self-hosted runners disabled for " +:+ owner +:+ "/" +:+ repo
         +:+ ". Manual reset required.") ;;;
  ret (JObj [("statusCode", JInt 200); ("body", JStr "Self-hosted runners disabled")]).

(** One invocation: the handler started on an empty log. *)
Definition invoke {C : Type} (w : World) (event : pyobj) (context : C)
  : result pyobj * list log_entry :=
  handler event context w [].

(** *** What a log shows *)

(** The requests handed to [urlopen], in order. *)
Definition requests (tr : list log_entry) : list Request :=
  omap (fun x => match x with Urlopen req _ => Some req | _ => None end) tr.

(** The parameter-store fetches, in order: name and decrypt flag. *)
Definition fetches (tr : list log_entry) : list (string * bool) :=
  omap (fun x => match x with
                 | GetParameter _ name decrypt _ => Some (name, decrypt)
                 | _ => None
                 end) tr.

(** The payloads handed to [jwt.encode], in order. *)
Definition minted (tr : list log_entry) : list pyobj :=
  omap (fun x => match x with JwtEncode payload _ _ _ => Some payload | _ => None end) tr.

(** The environment variables read, in order. *)
Definition env_reads (tr : list log_entry) : list string :=
  omap (fun x => match x with Getenv key _ => Some key | _ => None end) tr.

(** The exception a logged step ended with, if any.  The answer to the
    token-exchange POST also fails the step when no token can be taken out
    of it. *)
Definition entry_error (x : log_entry) : option exn :=
  match x with
  | Printed _ => None
  | TimeTime _ => None
  | Getenv _ (Raise e) => Some e
  | Boto3Client _ _ (Raise e) => Some e
  | GetParameter _ _ _ (Raise e) => Some e
  | JwtEncode _ _ _ (Raise e) => Some e
  | Urlopen _ (Raise e) => Some e
  | Urlopen req (Ok resp) =>
      if String.eqb (method req) "POST"
      then match response_token resp with Raise e => Some e | Ok _ => None end
      else None
  | _ => None
  end.

Definition errors (tr : list log_entry) : list exn := omap entry_error tr.

(** Header lookup on the header list of a request. *)
Fixpoint header (name : string) (hs : list (string * string)) : option string :=
  match hs with
  | [] => None
  | (k, v) :: rest => if String.eqb k name then Some v else header name rest
  end.

(** The three parameter-store keys derived from the naming prefix. *)
Definition secret_names (p : string) : list string :=
  ["/" +:+ p +:+ "/github-app-id";
   "/" +:+ p +:+ "/github-app-key";
   "/" +:+ p +:+ "/github-app-installation-id"].

(** The two GitHub endpoints. *)
Definition access_tokens_url (installation_id : string) : string :=
  "https://api.github.com/app/installations/" +:+ installation_id +:+ "/access_tokens".

Definition variable_url (owner repo : string) : string :=
  "https://api.github.com/repos/" +:+ owner +:+ "/" +:+ repo
  +:+ "/actions/variables/SELF_HOSTED_ENABLED".

(** The bytes of the JSON text [{"value": "false"}]. *)
Definition value_false_body : list byte :=
  str_encode ("{" +:+ dquote +:+ "value" +:+ dquote +:+ ": "
              +:+ dquote +:+ "false" +:+ dquote +:+ "}").

(** The validity window a payload declares around the reading [now] of the
    clock: issued 60 seconds in the past, expiring [lifetime] seconds after
    the issue time. *)
Definition jwt_window (now lifetime : Z) (payload : pyobj) : Prop :=
  exists iat exp : Z,
    getitem payload "iat" = Ok (JInt iat) /\
    getitem payload "exp" = Ok (JInt exp) /\
    iat = now - 60 /\
    exp = iat + lifetime.

(** The value the handler returns on success. *)
Definition success_response : pyobj :=
  JObj [("statusCode", JInt 200); ("body", JStr "Self-hosted runners disabled")].

(** The requests that carry a body, in order: where the body goes and what
    it is.  These are the writes of an invocation. *)
Definition writes (tr : list log_entry) : list (string * string * list byte) :=
  omap (fun req => match data req with
                   | Some body => Some (method req, full_url req, body)
                   | None => None
                   end) (requests tr).

(** What [get_installation_token] makes of the answer to its POST. *)
Definition exchange_outcome (r : result Response) : result pyobj :=
  match r with
  | Ok resp => response_token resp
  | Raise e => Raise e
  end.

(** The log shows a secret that could not be fetched: the parameter store
    refused, the client could not be built, or the region is not set. *)
Definition secret_fetch_failed (tr : list log_entry) (e : exn) : Prop :=
  (exists (c : Client) (name : string) (flag : bool),
      In (GetParameter c name flag (Raise e)) tr)
  \/ (exists service region : string, In (Boto3Client service region (Raise e)) tr)
  \/ In (Getenv "APP_AWS_REGION" (Raise e)) tr.

(** *** The shapes a run can take

    The requests the module builds, the entries each function leaves in the
    log, and the places where an invocation can stop.  The relations below
    are proved to cover every run ([handler_run_complete]); they follow the
    linear chain [START -> secrets-fetched -> assertion-minted ->
    token-obtained -> flag-written -> DONE] with its failure exits. *)

Definition jwt_payload (now : Z) (app_id : string) : pyobj :=
  JObj [("iat", JInt (now - 60)); ("exp", JInt (now + 600)); ("iss", JStr app_id)].

Definition token_request (jwt_token installation_id : string) : Request :=
  {| full_url := access_tokens_url installation_id;
     method := "POST";
     data := None;
     headers := [("Authorization", "Bearer " +:+ jwt_token);
                 ("Accept", "application/vnd.github+json");
                 ("X-GitHub-Api-Version", "2022-11-28")] |}.

Definition flag_request (token : pyobj) (owner repo : string) : Request :=
  {| full_url := variable_url owner repo;
     method := "PATCH";
     data := Some value_false_body;
     headers := [("Authorization", "Bearer " +:+ format_value builtin_str token);
                 ("Accept", "application/vnd.github+json");
                 ("Content-Type", "application/json");
                 ("X-GitHub-Api-Version", "2022-11-28")] |}.

Definition ssm_client (region : string) : Client :=
  {| service_name := "ssm"; region_name := region |}.

(** The entries one call of [get_ssm_parameter] adds, with its outcome. *)
Inductive ssm_run (w : World) (name : string) (flag : bool)
  : result string -> list log_entry -> Prop :=
| ssm_region_unset (e : exn) :
    getenv w "APP_AWS_REGION" = Raise e ->
    ssm_run w name flag (Raise e) [Getenv "APP_AWS_REGION" (Raise e)]
| ssm_client_failed (region : string) (e : exn) :
    getenv w "APP_AWS_REGION" = Ok region ->
    ssm_run w name flag (Raise e)
            [Getenv "APP_AWS_REGION" (Ok region);
             Boto3Client "ssm" region (Raise e)]
| ssm_fetch_failed (region : string) (e : exn) :
    getenv w "APP_AWS_REGION" = Ok region ->
    ssm_run w name flag (Raise e)
            [Getenv "APP_AWS_REGION" (Ok region);
             Boto3Client "ssm" region (Ok (ssm_client region));
             GetParameter (ssm_client region) name flag (Raise e)]
| ssm_fetched (region : string) (response : GetParameterResult) :
    getenv w "APP_AWS_REGION" = Ok region ->
    ssm_run w name flag (Ok (Value (Parameter_ response)))
            [Getenv "APP_AWS_REGION" (Ok region);
             Boto3Client "ssm" region (Ok (ssm_client region));
             GetParameter (ssm_client region) name flag (Ok response)].

(** The entries [generate_jwt] adds when the clock reads [t]. *)
Definition mint_entries (t : float) (app_id key : string) : list log_entry :=
  let payload := jwt_payload (int_of_float t) app_id in
  [TimeTime t; JwtEncode payload key "RS256" (jwt_encode payload key "RS256")].

(** The first line the handler prints. *)
Definition alert_line (event : pyobj) : log_entry :=
  Printed ("Budget alert triggered: " +:+ json_dumps float_repr event).

(** The log of the first three stages when all of them succeed: the three
    secrets, the assertion, the installation token. *)
Inductive token_obtained (w : World) (event : pyobj) (token : pyobj)
  : list log_entry -> Prop :=
| token_obtained_intro (p app_id key installation_id jwt_token : string)
                       (s1 s2 s3 : list log_entry) (t : float) (resp : Response) :
    getenv w "PREFIX" = Ok p ->
    ssm_run w ("/" +:+ p +:+ "/github-app-id") false (Ok app_id) s1 ->
    ssm_run w ("/" +:+ p +:+ "/github-app-key") true (Ok key) s2 ->
    ssm_run w ("/" +:+ p +:+ "/github-app-installation-id") false (Ok installation_id) s3 ->
    jwt_encode (jwt_payload (int_of_float t) app_id) key "RS256" = Ok jwt_token ->
    response_token resp = Ok token ->
    token_obtained w event token
      (alert_line event :: Getenv "PREFIX" (Ok p) :: s1 ++ s2 ++ s3
       ++ mint_entries t app_id key
       ++ [Urlopen (token_request jwt_token installation_id) (Ok resp)]).

(** Every place where an invocation can end. *)
Inductive handler_run (w : World) (event : pyobj)
  : result pyobj -> list log_entry -> Prop :=
| run_prefix_unset (e : exn) :
    getenv w "PREFIX" = Raise e ->
    handler_run w event (Raise e) [alert_line event; Getenv "PREFIX" (Raise e)]
| run_app_id_failed (p : string) (e : exn) (s1 : list log_entry) :
    getenv w "PREFIX" = Ok p ->
    ssm_run w ("/" +:+ p +:+ "/github-app-id") false (Raise e) s1 ->
    handler_run w event (Raise e)
                (alert_line event :: Getenv "PREFIX" (Ok p) :: s1)
| run_key_failed (p app_id : string) (e : exn) (s1 s2 : list log_entry) :
    getenv w "PREFIX" = Ok p ->
    ssm_run w ("/" +:+ p +:+ "/github-app-id") false (Ok app_id) s1 ->
    ssm_run w ("/" +:+ p +:+ "/github-app-key") true (Raise e) s2 ->
    handler_run w event (Raise e)
                (alert_line event :: Getenv "PREFIX" (Ok p) :: s1 ++ s2)
| run_installation_id_failed (p app_id key : string) (e : exn)
                             (s1 s2 s3 : list log_entry) :
    getenv w "PREFIX" = Ok p ->
    ssm_run w ("/" +:+ p +:+ "/github-app-id") false (Ok app_id) s1 ->
    ssm_run w ("/" +:+ p +:+ "/github-app-key") true (Ok key) s2 ->
    ssm_run w ("/" +:+ p +:+ "/github-app-installation-id") false (Raise e) s3 ->
    handler_run w event (Raise e)
                (alert_line event :: Getenv "PREFIX" (Ok p) :: s1 ++ s2 ++ s3)
| run_mint_failed (p app_id key installation_id : string) (e : exn)
                  (s1 s2 s3 : list log_entry) (t : float) :
    getenv w "PREFIX" = Ok p ->
    ssm_run w ("/" +:+ p +:+ "/github-app-id") false (Ok app_id) s1 ->
    ssm_run w ("/" +:+ p +:+ "/github-app-key") true (Ok key) s2 ->
    ssm_run w ("/" +:+ p +:+ "/github-app-installation-id") false (Ok installation_id) s3 ->
    jwt_encode (jwt_payload (int_of_float t) app_id) key "RS256" = Raise e ->
    handler_run w event (Raise e)
                (alert_line event :: Getenv "PREFIX" (Ok p) :: s1 ++ s2 ++ s3
                 ++ mint_entries t app_id key)
| run_exchange_failed (p app_id key installation_id jwt_token : string) (e : exn)
                      (s1 s2 s3 : list log_entry) (t : float)
                      (r : result Response) :
    getenv w "PREFIX" = Ok p ->
    ssm_run w ("/" +:+ p +:+ "/github-app-id") false (Ok app_id) s1 ->
    ssm_run w ("/" +:+ p +:+ "/github-app-key") true (Ok key) s2 ->
    ssm_run w ("/" +:+ p +:+ "/github-app-installation-id") false (Ok installation_id) s3 ->
    jwt_encode (jwt_payload (int_of_float t) app_id) key "RS256" = Ok jwt_token ->
    exchange_outcome r = Raise e ->
    handler_run w event (Raise e)
                (alert_line event :: Getenv "PREFIX" (Ok p) :: s1 ++ s2 ++ s3
                 ++ mint_entries t app_id key
                 ++ [Urlopen (token_request jwt_token installation_id) r])
| run_owner_unset (token : pyobj) (pre : list log_entry) (e : exn) :
    token_obtained w event token pre ->
    getenv w "GITHUB_OWNER" = Raise e ->
    handler_run w event (Raise e) (pre ++ [Getenv "GITHUB_OWNER" (Raise e)])
| run_repo_unset (token : pyobj) (pre : list log_entry) (owner : string) (e : exn) :
    token_obtained w event token pre ->
    getenv w "GITHUB_OWNER" = Ok owner ->
    getenv w "GITHUB_REPO" = Raise e ->
    handler_run w event (Raise e)
                (pre ++ [Getenv "GITHUB_OWNER" (Ok owner);
                         Getenv "GITHUB_REPO" (Raise e)])
| run_flag_write_failed (token : pyobj) (pre : list log_entry)
                        (owner repo : string) (e : exn) :
    token_obtained w event token pre ->
    getenv w "GITHUB_OWNER" = Ok owner ->
    getenv w "GITHUB_REPO" = Ok repo ->
    handler_run w event (Raise e)
                (pre ++ [Getenv "GITHUB_OWNER" (Ok owner);
                         Getenv "GITHUB_REPO" (Ok repo);
                         Urlopen (flag_request token owner repo) (Raise e)])
| run_done (token : pyobj) (pre : list log_entry) (owner repo : string)
           (resp : Response) :
    token_obtained w event token pre ->
    getenv w "GITHUB_OWNER" = Ok owner ->
    getenv w "GITHUB_REPO" = Ok repo ->
    handler_run w event (Ok success_response)
                (pre ++ [Getenv "GITHUB_OWNER" (Ok owner);
                         Getenv "GITHUB_REPO" (Ok repo);
                         Urlopen (flag_request token owner repo) (Ok resp);
                         Printed ("GitHub variable updated: " +:+ pretty (status resp));
                         Printed ("Self-hosted runners disabled for " +:+ owner +:+ "/"
                                +:+ repo +:+ ". Manual reset required.")]).

(** *** More of what a log shows *)

(** The lines printed, in order. *)
Definition printed (tr : list log_entry) : list string :=
  omap (fun x => match x with Printed line => Some line | _ => None end) tr.

(** The clients built, in order: service and region. *)
Definition clients (tr : list log_entry) : list (string * string) :=
  omap (fun x => match x with
                 | Boto3Client service region _ => Some (service, region)
                 | _ => None
                 end) tr.

(** The readings of the clock, in order. *)
Definition clock_reads (tr : list log_entry) : list float :=
  omap (fun x => match x with TimeTime t => Some t | _ => None end) tr.

(** *** The URL that is sent

    [urllib.request.Request] does not send the URL it is given as it is:
    it cuts the fragment off, that is what follows the last ['#']
    ([urllib.parse._splittag]); the path ends at the first ['?'].  The
    repository-variable endpoint reads the name of the variable off the
    last segment of the path. *)

(** [s.rpartition(c)]: what stands before and after the last [c], if any. *)
Fixpoint rpartition (c : ascii) (s : string) : option (string * string) :=
  match s with
  | EmptyString => None
  | String a rest =>
      match rpartition c rest with
      | Some (before, after) => Some (String a before, after)
      | None => if Ascii.eqb a c then Some (EmptyString, rest) else None
      end
  end.

(** [c in s] *)
Fixpoint occurs (c : ascii) (s : string) : bool :=
  match s with
  | EmptyString => false
  | String a rest => Ascii.eqb a c || occurs c rest
  end.

(** What stands before the first [c]; the whole of [s] without one. *)
Fixpoint before_first (c : ascii) (s : string) : string :=
  match s with
  | EmptyString => EmptyString
  | String a rest => if Ascii.eqb a c then EmptyString else String a (before_first c rest)
  end.

(** [_splittag(url)]: the URL without its fragment, and the fragment. *)
Definition splittag (url : string) : string * option string :=
  match rpartition "#" url with
  | Some (path, tag) => (path, Some tag)
  | None => (url, None)
  end.

(** The URL a request for [url] is sent to. *)
Definition sent_url (url : string) : string := fst (splittag url).

(** The last segment of the path of the URL that is sent: the variable a
    PATCH to the repository-variable endpoint writes. *)
Definition written_variable (url : string) : string :=
  let path := before_first "?" (sent_url url) in
  match rpartition "/" path with
  | Some (_, name) => name
  | None => path
  end.

(** Text that can stand in a URL without starting a fragment or a query. *)
Definition url_safe (s : string) : bool := negb (occurs "#" s) && negb (occurs "?" s).

End Program.

(** ** A concrete runtime and concrete worlds

    A test double of the Python side (rational clock readings, [int]
    truncating toward zero, a signer that only frames its input, a
    [json.loads] that knows the few bodies the scenarios use) and worlds
    built from tables, to evaluate the model on concrete invocations. *)

Module Demo.

(** Clock readings are rationals. *)
Definition rational : Float := Q.

Definition trunc (x : Q) : Z := Z.quot (Qnum x) (Z.pos (Qden x)).

Definition quoted (s : string) : string := dquote +:+ s +:+ dquote.

Definition token_json (tok : string) : string :=
  "{" +:+ quoted "token" +:+ ": " +:+ quoted tok +:+ "}".

Definition loads (body : list byte) : result (@json rational) :=
  let text := string_of_list_byte body in
  if String.eqb text (token_json "tok") then Ok (JObj [("token", JStr "tok")])
  else if String.eqb text (token_json "abc123") then Ok (JObj [("token", JStr "abc123")])
  else if String.eqb text "{}" then Ok (JObj [])
  else if String.eqb text "null" then Ok JNull
  else Raise (JSONDecodeError "Expecting value").

Definition sign (payload : @json rational) (key algorithm : string) : result string :=
  if String.eqb key EmptyString
  then Raise (InvalidKeyError "Could not parse the provided public key.")
  else Ok (algorithm +:+ "." +:+ json_dumps (fun _ => "0.0") payload +:+ "." +:+ key).

#[export] Instance runtime : PyRuntime := {|
  runtime_float := rational;
  int_of_float := trunc;
  float_repr := fun _ => "0.0";
  builtin_str := fun _ => "None";
  jwt_encode := sign;
  json_loads := loads;
|}.

(** A world from an environment, a table of secrets, a fixed clock reading
    and a stateless remote. *)
Definition world (env secrets : gmap string string) (now : Q)
           (remote : Request -> result Response) : World :=
  {| environ := env;
     boto3_client_error := fun _ _ _ => None;
     get_parameter := fun _ _ name _ =>
       match secrets !! name with
       | Some v => Ok {| Parameter_ := {| Name := name; Value := v |} |}
       | None => Raise (ClientError "ParameterNotFound")
       end;
     time_time := fun _ => now;
     urlopen := fun _ req => remote req |}.

Definition env : gmap string string :=
  list_to_map [("APP_AWS_REGION", "us-east-1"); ("PREFIX", "demo");
               ("GITHUB_OWNER", "acme"); ("GITHUB_REPO", "ci")].

Definition secrets : gmap string string :=
  list_to_map [("/demo/github-app-id", "1"); ("/demo/github-app-key", "PEM");
               ("/demo/github-app-installation-id", "42")].

(** GitHub answering 201 with a token to the POST and 204 to the PATCH. *)
Definition github (req : Request) : result Response :=
  if String.eqb (method req) "POST"
  then Ok {| status := 201; read := Ok (str_encode (token_json "tok")) |}
  else Ok {| status := 204; read := Ok [] |}.

(** GitHub refusing the token exchange. *)
Definition github_401 (req : Request) : result Response :=
  if String.eqb (method req) "POST" then Raise (HTTPError 401)
  else Ok {| status := 204; read := Ok [] |}.

(** GitHub answering the token exchange with an empty JSON object. *)
Definition github_no_token (req : Request) : result Response :=
  if String.eqb (method req) "POST"
  then Ok {| status := 200; read := Ok (str_encode "{}") |}
  else Ok {| status := 204; read := Ok [] |}.

(** The event of the end-to-end scenario: [{"Records": []}]. *)
Definition alert : json := JObj [("Records", JArr [])].

(** The assertion the test signer makes at clock reading 1000. *)
Definition assertion : string :=
  "RS256." +:+ json_dumps (fun _ => "0.0") (jwt_payload 1000 "1") +:+ ".PEM".

(** Everything in place, the clock reading 1000. *)
Definition happy : World := world env secrets (1000 # 1) github.

(** The same, half a second later. *)
Definition happy_later : World := world env secrets (2001 # 2) github.

(** The token exchange is refused with status 401. *)
Definition refused : World := world env secrets (1000 # 1) github_401.

(** The token exchange answers without a token. *)
Definition tokenless : World := world env secrets (1000 # 1) github_no_token.

(** The private key is missing from the parameter store. *)
Definition keyless : World :=
  world env (delete "/demo/github-app-key" secrets) (1000 # 1) github.

(** Nothing configured and GitHub unreachable, the clock reading 1000. *)
Definition bare : World :=
  world ∅ ∅ (1000 # 1) (fun _ => Raise (URLError "unreachable")).

(** The naming prefix is not set. *)
Definition no_prefix : World := world (delete "PREFIX" env) secrets (1000 # 1) github.

(** The region is not set. *)
Definition no_region : World :=
  world (delete "APP_AWS_REGION" env) secrets (1000 # 1) github.

(** The repository owner is not set. *)
Definition no_owner : World := world (delete "GITHUB_OWNER" env) secrets (1000 # 1) github.

(** The stored private key is empty, which the test signer refuses. *)
Definition bad_key : World :=
  world env (insert "/demo/github-app-key" EmptyString secrets) (1000 # 1) github.

(** The repository name carries a path of its own and a fragment mark. *)
Definition hijacked : World :=
  world (insert "GITHUB_REPO" "ci/actions/variables/OTHER_VAR#" env) secrets (1000 # 1)
        github.

End Demo.

(** ** Properties *)

Section Properties.

Context `{PyRuntime}.

Abbreviation pyobj := json.

(** *** Unfolding the monad *)

Lemma bind_unfold {A B : Type} (m : M A) (k : A -> M B) (w : World) (tr : list log_entry) :
  bind m k w tr = match m w tr with
                  | (Ok a, tr') => k a w tr'
                  | (Raise e, tr') => (Raise e, tr')
                  end.
Proof. reflexivity. Qed.

Lemma call_unfold {A : Type} (ask : World -> list log_entry -> result A)
      (mk : result A -> log_entry) (w : World) (tr : list log_entry) :
  call ask mk w tr = (ask w tr, tr ++ [mk (ask w tr)]).
Proof. reflexivity. Qed.

(** *** [generate_jwt] *)

Lemma generate_jwt_unfold (app_id key : string) (w : World) (tr : list log_entry) :
  let t := time_time w tr in
  generate_jwt app_id key w tr
  = (jwt_encode (jwt_payload (int_of_float t) app_id) key "RS256",
     tr ++ mint_entries t app_id key).
Proof.
  cbv zeta. unfold generate_jwt, time_now, jwt_encode_call.
  rewrite bind_unfold, call_unfold. now rewrite <- app_assoc.
Qed.

(** *** [get_installation_token] *)

Lemma get_installation_token_unfold (jwt_token installation_id : string)
      (w : World) (tr : list log_entry) :
  let req := token_request jwt_token installation_id in
  let r := urlopen w tr req in
  get_installation_token jwt_token installation_id w tr
  = (exchange_outcome r, tr ++ [Urlopen req r]).
Proof.
  cbv zeta. unfold get_installation_token, urlopen_call, lift.
  rewrite bind_unfold, call_unfold.
  change {| full_url := _; method := "POST"; data := None; headers := _ |}
    with (token_request jwt_token installation_id).
  now destruct (urlopen w tr _).
Qed.

(** *** [disable_self_hosted_runners] *)

Lemma json_dumps_value_false :
  str_encode (json_dumps float_repr (JObj [("value", JStr "false")])) = value_false_body.
Proof. reflexivity. Qed.

Lemma disable_self_hosted_runners_unfold (token : pyobj) (owner repo : string)
      (w : World) (tr : list log_entry) :
  let req := flag_request token owner repo in
  let r := urlopen w tr req in
  disable_self_hosted_runners token owner repo w tr
  = match r with
    | Ok resp => (Ok tt, tr ++ [Urlopen req r;
                                Printed ("GitHub variable updated: " +:+ pretty (status resp))])
    | Raise e => (Raise e, tr ++ [Urlopen req r])
    end.
Proof.
  cbv zeta. unfold disable_self_hosted_runners, urlopen_call, print.
  rewrite bind_unfold, call_unfold, json_dumps_value_false.
  change {| full_url := _; method := "PATCH"; data := _; headers := _ |}
    with (flag_request token owner repo).
  destruct (urlopen w tr _); [|reflexivity].
  now rewrite <- app_assoc.
Qed.

(** *** [get_ssm_parameter] *)

Lemma environ_getitem_unfold (key : string) (w : World) (tr : list log_entry) :
  environ_getitem key w tr = (getenv w key, tr ++ [Getenv key (getenv w key)]).
Proof. reflexivity. Qed.

Lemma print_unfold (line : string) (w : World) (tr : list log_entry) :
  print line w tr = (Ok tt, tr ++ [Printed line]).
Proof. reflexivity. Qed.

Lemma make_client_ok (w : World) (tr : list log_entry) (service region : string)
      (c : Client) :
  make_client w tr service region = Ok c ->
  c = {| service_name := service; region_name := region |}.
Proof. unfold make_client. destruct (boto3_client_error _ _ _ _); congruence. Qed.

Lemma get_ssm_parameter_run (name : string) (decrypt : option bool)
      (w : World) (tr : list log_entry) :
  exists evs : list log_entry,
    snd (get_ssm_parameter name decrypt w tr) = tr ++ evs /\
    ssm_run w name (match decrypt with Some b => b | None => false end)
            (fst (get_ssm_parameter name decrypt w tr)) evs.
Proof.
  unfold get_ssm_parameter, boto3_client, client_get_parameter, ret.
  rewrite bind_unfold, environ_getitem_unfold.
  destruct (getenv w "APP_AWS_REGION") as [region|e] eqn:Eregion.
  2: { eexists. split; [reflexivity|]. now constructor. }
  rewrite bind_unfold, call_unfold.
  destruct (make_client w _ "ssm" region) as [ssm|e] eqn:Eclient.
  2: { eexists. cbn [fst snd]. rewrite <- app_assoc. split; [reflexivity|].
       now constructor. }
  apply make_client_ok in Eclient as ->.
  rewrite bind_unfold, call_unfold.
  destruct (get_parameter w _ _ name _) as [response|e];
    eexists; cbn [fst snd]; rewrite <- !app_assoc; (split; [reflexivity|]);
    now constructor.
Qed.

(** *** Every invocation has one of the shapes of [handler_run] *)

Lemma handler_unfold {C : Type} (event : pyobj) (context : C) :
  handler event context
  = bind (print ("Budget alert triggered: " +:+ json_dumps float_repr event)) (fun _ =>
    bind (environ_getitem "PREFIX") (fun p =>
    bind (get_ssm_parameter ("/" +:+ p +:+ "/github-app-id") None) (fun app_id =>
    bind (get_ssm_parameter ("/" +:+ p +:+ "/github-app-key") (Some true)) (fun key =>
    bind (get_ssm_parameter ("/" +:+ p +:+ "/github-app-installation-id") None)
         (fun installation_id =>
    bind (generate_jwt app_id key) (fun jwt_token =>
    bind (get_installation_token jwt_token installation_id) (fun token =>
    bind (environ_getitem "GITHUB_OWNER") (fun owner =>
    bind (environ_getitem "GITHUB_REPO") (fun repo =>
    bind (disable_self_hosted_runners token owner repo) (fun _ =>
    bind (print ("Self-hosted runners disabled for " +:+ owner +:+ "/" +:+ repo
                 +:+ ". Manual reset required.")) (fun _ =>
    ret success_response))))))))))).
Proof. reflexivity. Qed.

(** One [get_ssm_parameter] step of the handler: its entries and outcome. *)
Ltac ssm_step name decrypt w tr :=
  let evs := fresh "s" in
  let Htr := fresh "Htr" in
  let Hshape := fresh "Hshape" in
  let v := fresh "v" in
  let e := fresh "e" in
  let tr' := fresh "tr" in
  destruct (get_ssm_parameter_run name decrypt w tr) as (evs & Htr & Hshape);
  rewrite bind_unfold;
  destruct (get_ssm_parameter name decrypt w tr) as [[v|e] tr'];
  cbn [fst snd] in Htr, Hshape; subst tr'.

Theorem handler_run_complete {C : Type} (w : World) (event : pyobj) (context : C) :
  handler_run w event (fst (invoke w event context)) (snd (invoke w event context)).
Proof.
  unfold invoke. rewrite handler_unfold.
  rewrite bind_unfold, print_unfold, bind_unfold, environ_getitem_unfold.
  cbn [app]. fold (alert_line event).
  destruct (getenv w "PREFIX") as [p|e] eqn:Eprefix; [|now constructor].
  match goal with |- context [bind (get_ssm_parameter ?n ?d) _ ?w ?tr] =>
    ssm_step n d w tr end.
  2: { cbn [fst snd app]. eapply run_app_id_failed; eauto. }
  match goal with |- context [bind (get_ssm_parameter ?n ?d) _ ?w ?tr] =>
    ssm_step n d w tr end.
  2: { cbn [fst snd app]. rewrite <- ?app_assoc; cbn [app]. eapply run_key_failed; eauto. }
  match goal with |- context [bind (get_ssm_parameter ?n ?d) _ ?w ?tr] =>
    ssm_step n d w tr end.
  2: { cbn [fst snd app]. rewrite <- ?app_assoc; cbn [app].
       eapply run_installation_id_failed; eauto. }
  rewrite bind_unfold, generate_jwt_unfold. cbv zeta.
  match goal with |- context [mint_entries ?t0 _ _] => set (t := t0) end.
  destruct (jwt_encode _ v0 "RS256") as [jwt_token|e] eqn:Ejwt.
  2: { cbn [fst snd app]. rewrite <- ?app_assoc; cbn [app].
       eapply run_mint_failed; eauto. }
  rewrite bind_unfold, get_installation_token_unfold. cbv zeta.
  match goal with |- context [Urlopen _ ?r0] => set (r := r0) end.
  destruct (exchange_outcome r) as [token|e] eqn:Etoken.
  2: { cbn [fst snd app]. rewrite <- ?app_assoc; cbn [app].
       eapply run_exchange_failed; eauto. }
  destruct r as [resp|e]; [|discriminate].
  match goal with |- context [bind (environ_getitem "GITHUB_OWNER") _ _ ?tr0] =>
    assert (Hpre : token_obtained w event token tr0)
  end.
  { cbn [app]. rewrite <- ?app_assoc; cbn [app]. econstructor; eauto. }
  match goal with |- context [bind (environ_getitem "GITHUB_OWNER") _ _ ?tr0] =>
    set (pre := tr0) in *
  end.
  clearbody pre.
  rewrite bind_unfold, environ_getitem_unfold.
  destruct (getenv w "GITHUB_OWNER") as [owner|e] eqn:Eowner.
  2: { cbn [fst snd]. eapply run_owner_unset; eauto. }
  rewrite bind_unfold, environ_getitem_unfold.
  destruct (getenv w "GITHUB_REPO") as [repo|e] eqn:Erepo.
  2: { cbn [fst snd]. rewrite <- ?app_assoc; cbn [app]. eapply run_repo_unset; eauto. }
  rewrite bind_unfold, disable_self_hosted_runners_unfold. cbv zeta.
  destruct (urlopen w _ (flag_request token owner repo)) as [resp'|e].
  2: { cbn [fst snd]. rewrite <- ?app_assoc; cbn [app]. eapply run_flag_write_failed; eauto. }
  rewrite bind_unfold, print_unfold. unfold ret. cbn [fst snd].
  rewrite <- ?app_assoc; cbn [app]. eapply run_done; eauto.
Qed.


(** Split on the shape of the invocation, down to explicit logs. *)
Ltac run_cases w event ctx :=
  let Hrun := fresh "Hrun" in
  let out := fresh "out" in
  let tr := fresh "tr" in
  pose proof (handler_run_complete w event ctx) as Hrun;
  destruct (invoke w event ctx) as [out tr];
  cbn [fst snd] in *;
  destruct Hrun;
  repeat match goal with
         | Hpre : token_obtained _ _ _ _ |- _ => destruct Hpre
         end;
  repeat match goal with
         | Hssm : ssm_run _ _ _ _ _ |- _ => inversion Hssm; subst; clear Hssm
         end;
  unfold mint_entries, alert_line in *;
  cbn [app] in *.

(** Evaluate what the explicit log shows. *)
Ltac observe :=
  unfold errors, writes, requests, fetches, minted, env_reads in *;
  cbn [omap list_omap entry_error method data full_url token_request flag_request
       String.eqb Ascii.eqb Bool.eqb length fst snd map fmap list_fmap] in *.

(** Replace the answers of the pure steps by what the case at hand says
    about them. *)
Ltac use_answers :=
  repeat match goal with
         | Heq : exchange_outcome ?r = _ |- _ =>
             destruct r; cbn [exchange_outcome] in Heq;
             [|injection Heq as ->]
         end;
  repeat match goal with
         | Heq : jwt_encode _ _ _ = _ |- _ => rewrite ?Heq in *; clear Heq
         | Heq : response_token _ = _ |- _ => rewrite ?Heq in *; clear Heq
         end.

(** Settle a membership hypothesis on an explicit log. *)
Ltac in_log Hin :=
  cbn [In] in Hin;
  repeat (destruct Hin as [Hin|Hin]; [try discriminate Hin|]);
  try contradiction Hin.

Lemma getenv_ok (w : World) (key v : string) :
  getenv w key = Ok v <-> environ w !! key = Some v.
Proof.
  unfold getenv. destruct (environ w !! key); split; congruence.
Qed.

Lemma response_without_token (resp : Response) (body : list byte)
      (fields : list (string * pyobj)) :
  read resp = Ok body ->
  json_loads body = Ok (JObj fields) ->
  dict_get fields "token" = None ->
  response_token resp = Raise (KeyError "token").
Proof.
  intros Hread Hloads Hget. unfold response_token.
  rewrite Hread, Hloads. cbn [getitem]. now rewrite Hget.
Qed.

Lemma response_with_token (resp : Response) (body : list byte)
      (fields : list (string * pyobj)) (v : pyobj) :
  read resp = Ok body ->
  json_loads body = Ok (JObj fields) ->
  dict_get fields "token" = Some v ->
  response_token resp = Ok v.
Proof.
  intros Hread Hloads Hget. unfold response_token.
  rewrite Hread, Hloads. cbn [getitem]. now rewrite Hget.
Qed.

(** ** The claims *)

(** C1 (as amended).  Whatever the application id, the key and the reading
    [t] of the clock, [generate_jwt] signs exactly one payload, with RS256;
    its issuer is the application id, its issued-at is [int(t) - 60] and its
    expiry is [int(t) + 600], that is issued-at plus 660 seconds (not plus
    600). *)
Theorem generate_jwt_window (app_id key : string) (w : World) (tr : list log_entry) :
  let now := int_of_float (time_time w tr) in
  exists payload : pyobj,
    minted (snd (generate_jwt app_id key w tr)) = minted tr ++ [payload]
    /\ fst (generate_jwt app_id key w tr) = jwt_encode payload key "RS256"
    /\ getitem payload "iss" = Ok (JStr app_id)
    /\ getitem payload "iat" = Ok (JInt (now - 60))
    /\ getitem payload "exp" = Ok (JInt (now + 600))
    /\ jwt_window now 660 payload.
Proof.
  intros now. rewrite generate_jwt_unfold. cbv zeta. fold now.
  exists (jwt_payload now app_id). cbn [fst snd]. split.
  { unfold minted, mint_entries. rewrite omap_app. reflexivity. }
  split; [reflexivity|].
  repeat split.
  exists (now - 60), (now + 600). repeat split. lia.
Qed.

(** C2.  When the answer to the token-exchange POST is an exception (such
    as the [HTTPError] of a non-success status) or a response out of which
    no token can be taken, the handler raises that very error, the POST is
    the only request of the invocation, and nothing is written: no PATCH is
    attempted. *)
Theorem handler_exchange_failure {C : Type} (w : World) (event : pyobj) (ctx : C)
        (req : Request) (r : result Response) (e : exn) :
  In (Urlopen req r) (snd (invoke w event ctx)) ->
  method req = "POST" ->
  (r = Raise e \/ exists resp : Response, r = Ok resp /\ response_token resp = Raise e) ->
  fst (invoke w event ctx) = Raise e
  /\ requests (snd (invoke w event ctx)) = [req]
  /\ writes (snd (invoke w event ctx)) = []
  /\ Forall (fun q : Request => method q <> "PATCH") (requests (snd (invoke w event ctx))).
Proof.
  intros Hin Hmethod Hfail.
  assert (Hout : exchange_outcome r = Raise e).
  { destruct Hfail as [->|(resp & -> & Hresp)]; [reflexivity|exact Hresp]. }
  clear Hfail. revert Hin.
  run_cases w event ctx; intros Hin; in_log Hin.
  all: try (injection Hin as <- <-; discriminate Hmethod).
  all: injection Hin as <- <-.
  all: try (cbn [exchange_outcome] in Hout; congruence).
  observe. repeat split; try congruence.
  repeat constructor. discriminate.
Qed.

(** C3.  When one of the secrets cannot be fetched (the parameter store
    refuses, the client cannot be built, or the region is not set), the
    handler raises that very error; no request was sent to GitHub and no
    assertion was signed, nor was the clock read for one. *)
Theorem handler_secret_failure {C : Type} (w : World) (event : pyobj) (ctx : C)
        (e : exn) :
  secret_fetch_failed (snd (invoke w event ctx)) e ->
  fst (invoke w event ctx) = Raise e
  /\ requests (snd (invoke w event ctx)) = []
  /\ minted (snd (invoke w event ctx)) = []
  /\ (forall t : float, ~ In (TimeTime t) (snd (invoke w event ctx))).
Proof.
  unfold secret_fetch_failed.
  run_cases w event ctx;
    intros [(c & name & flag & Hin)|[(service & region' & Hin)|Hin]];
    in_log Hin.
  all: try (injection Hin as <-; observe; repeat split; try reflexivity;
            intros t' Ht; in_log Ht).
  all: try (injection Hin as <- <- <- <-; observe; repeat split; try reflexivity;
            intros t' Ht; in_log Ht).
  all: try (injection Hin as <- <- <-; observe; repeat split; try reflexivity;
            intros t' Ht; in_log Ht).
Qed.

(** C4.  The outcome of an invocation is decided by its steps: when none of
    them ends in an error the handler returns exactly
    [{"statusCode": 200, "body": "Self-hosted runners disabled"}], and a
    successful flag write is enough for that; otherwise exactly one step has
    failed and the handler raises the error of that step.  Nothing else is
    ever returned or raised. *)
Theorem handler_outcome {C : Type} (w : World) (event : pyobj) (ctx : C) :
  let out := fst (invoke w event ctx) in
  let tr := snd (invoke w event ctx) in
  out = match errors tr with
        | [] => Ok success_response
        | e :: _ => Raise e
        end
  /\ (length (errors tr) <= 1)%nat
  /\ (forall e : exn, In e (errors tr) -> out = Raise e)
  /\ (forall e : exn, out = Raise e -> errors tr = [e])
  /\ (forall v : pyobj, out = Ok v -> v = success_response /\ errors tr = [])
  /\ (forall (req : Request) (resp : Response),
        In (Urlopen req (Ok resp)) tr -> method req = "PATCH" ->
        out = Ok success_response).
Proof.
  cbv zeta.
  assert (Hmain :
    fst (invoke w event ctx)
    = match errors (snd (invoke w event ctx)) with
      | [] => Ok success_response
      | e :: _ => Raise e
      end
    /\ (length (errors (snd (invoke w event ctx))) <= 1)%nat
    /\ (forall (req : Request) (resp : Response),
          In (Urlopen req (Ok resp)) (snd (invoke w event ctx)) ->
          method req = "PATCH" ->
          fst (invoke w event ctx) = Ok success_response)).
  { run_cases w event ctx; observe; use_answers.
    all: split; [reflexivity|split; [cbn [length]; lia|]].
    all: intros req resp' Hin Hmethod; in_log Hin.
    all: try (injection Hin as <- <-; discriminate Hmethod).
    all: reflexivity. }
  destruct Hmain as (Hout & Hlen & Hpatch).
  destruct (errors (snd (invoke w event ctx))) as [|e1 [|e2 rest]] eqn:Herr;
    cbn [length] in Hlen; [| |lia].
  - repeat split; try assumption; try lia.
    + intros e [].
    + intros e He. congruence.
    + congruence.
  - repeat split; try assumption; try lia.
    + intros e [<-|[]]. assumption.
    + intros e He. congruence.
    + congruence.
    + congruence.
Qed.


(** C5.  Given a bearer token [t], an owner and a repository name,
    [disable_self_hosted_runners] hands exactly one request to [urlopen]: a
    PATCH to the variable endpoint of that repository, whose body is the
    JSON text [{"value": "false"}] and whose [Authorization] header is
    ["Bearer "] followed by [t]. *)
Theorem disable_self_hosted_runners_request (t owner repo : string)
        (w : World) (tr : list log_entry) :
  let run := disable_self_hosted_runners (JStr t) owner repo w tr in
  exists req : Request,
    requests (snd run) = requests tr ++ [req]
    /\ method req = "PATCH"
    /\ full_url req = "https://api.github.com/repos/" +:+ owner +:+ "/" +:+ repo
                      +:+ "/actions/variables/SELF_HOSTED_ENABLED"
    /\ data req = Some value_false_body
    /\ header "Authorization" (headers req) = Some ("Bearer " +:+ t)
    /\ header "Content-Type" (headers req) = Some "application/json".
Proof.
  cbv zeta. rewrite disable_self_hosted_runners_unfold. cbv zeta.
  exists (flag_request (JStr t) owner repo).
  split; [|repeat split].
  destruct (urlopen w tr _); cbn [snd]; unfold requests; now rewrite omap_app.
Qed.

(** C6.  Given a signed assertion [j] and an installation id [i],
    [get_installation_token] hands exactly one request to [urlopen]: a POST
    without body to the access-token endpoint of that installation, whose
    [Authorization] header is ["Bearer "] followed by [j]; and when the body
    of the answer parses to an object with a ["token"] field, the value of
    that field is what it returns. *)
Theorem get_installation_token_exchange (j i : string) (w : World) (tr : list log_entry) :
  let run := get_installation_token j i w tr in
  exists (req : Request) (r : result Response),
    snd run = tr ++ [Urlopen req r]
    /\ requests (snd run) = requests tr ++ [req]
    /\ method req = "POST"
    /\ full_url req = "https://api.github.com/app/installations/" +:+ i +:+ "/access_tokens"
    /\ data req = None
    /\ header "Authorization" (headers req) = Some ("Bearer " +:+ j)
    /\ fst run = exchange_outcome r
    /\ (forall (resp : Response) (body : list byte) (fields : list (string * pyobj))
               (v : pyobj),
          r = Ok resp -> read resp = Ok body -> json_loads body = Ok (JObj fields) ->
          dict_get fields "token" = Some v ->
          fst run = Ok v).
Proof.
  cbv zeta. rewrite get_installation_token_unfold. cbv zeta. cbn [fst snd].
  exists (token_request j i), (urlopen w tr (token_request j i)).
  split; [reflexivity|].
  split; [unfold requests; now rewrite omap_app|].
  repeat split.
  intros resp body fields v -> Hread Hloads Hget.
  cbn [exchange_outcome]. eauto using response_with_token.
Qed.

(** C7.  When the naming prefix is [p], the parameter-store keys the handler
    fetches are [/p/github-app-id], [/p/github-app-key] and
    [/p/github-app-installation-id], in this order and no other key: all
    three in every run that gets past the secrets (in particular in every
    successful run), an initial part of them when a fetch fails.  The only
    environment variables read are the prefix, the region, the owner and the
    repository name, and the flag write goes to the repository whose owner
    and name stand in [GITHUB_OWNER] and [GITHUB_REPO]. *)
Theorem handler_reads {C : Type} (w : World) (event : pyobj) (ctx : C) (p : string) :
  environ w !! "PREFIX" = Some p ->
  let out := fst (invoke w event ctx) in
  let tr := snd (invoke w event ctx) in
  map fst (fetches tr) `prefix_of` secret_names p
  /\ (minted tr <> [] -> map fst (fetches tr) = secret_names p)
  /\ (is_ok out = true ->
      map fst (fetches tr) = secret_names p
      /\ In "GITHUB_OWNER" (env_reads tr) /\ In "GITHUB_REPO" (env_reads tr))
  /\ Forall (fun key : string =>
               In key ["PREFIX"; "APP_AWS_REGION"; "GITHUB_OWNER"; "GITHUB_REPO"])
            (env_reads tr)
  /\ (forall req : Request,
        In req (requests tr) -> method req = "PATCH" ->
        exists owner repo : string,
          environ w !! "GITHUB_OWNER" = Some owner
          /\ environ w !! "GITHUB_REPO" = Some repo
          /\ full_url req = variable_url owner repo).
Proof.
  intros Hprefix. apply getenv_ok in Hprefix. cbv zeta.
  run_cases w event ctx; observe.
  all: match goal with
       | Hp : getenv _ "PREFIX" = _ |- _ => rewrite Hprefix in Hp
       end.
  all: try discriminate.
  all: match goal with
       | Hp : Ok _ = Ok _ |- _ => injection Hp as <-
       end.
  all: unfold secret_names.
  all: split; [eexists; cbn [app]; reflexivity|].
  all: split; [first [reflexivity | intros Hne; now contradiction Hne]|].
  all: split; [cbn [is_ok]; first [discriminate | intros _; cbn [In]; auto 20]|].
  all: split; [repeat (apply List.Forall_cons; [cbn [In]; auto 10|]);
               apply List.Forall_nil|].
  all: intros req Hin Hmethod; in_log Hin; subst req;
       try discriminate Hmethod.
  all: repeat match goal with
         | Hg : getenv _ _ = Ok _ |- _ => apply getenv_ok in Hg
         end.
  all: eauto.
Qed.

(** *** The URL that is sent *)

Lemma occurs_app (c : ascii) (a b : string) :
  occurs c (a +:+ b) = occurs c a || occurs c b.
Proof.
  induction a as [|x a IH]; [reflexivity|].
  simpl. rewrite IH. now rewrite orb_assoc.
Qed.

Lemma rpartition_none (c : ascii) (s : string) :
  occurs c s = false -> rpartition c s = None.
Proof.
  induction s as [|x s IH]; [reflexivity|].
  simpl. intros [Hx Hs]%orb_false_iff. now rewrite (IH Hs), Hx.
Qed.

Lemma before_first_whole (c : ascii) (s : string) :
  occurs c s = false -> before_first c s = s.
Proof.
  induction s as [|x s IH]; [reflexivity|].
  simpl. intros [Hx Hs]%orb_false_iff. now rewrite Hx, (IH Hs).
Qed.

Lemma rpartition_app (c : ascii) (a b : string) (before after : string) :
  rpartition c b = Some (before, after) ->
  rpartition c (a +:+ b) = Some (a +:+ before, after).
Proof.
  intros Hb. induction a as [|x a IH]; [exact Hb|].
  simpl. now rewrite IH.
Qed.

Lemma variable_url_safe (owner repo : string) :
  url_safe owner = true -> url_safe repo = true ->
  sent_url (variable_url owner repo) = variable_url owner repo
  /\ written_variable (variable_url owner repo) = "SELF_HOSTED_ENABLED".
Proof.
  unfold url_safe.
  intros [Ho1 Ho2]%andb_true_iff [Hr1 Hr2]%andb_true_iff.
  apply negb_true_iff in Ho1, Ho2, Hr1, Hr2.
  assert (Hhash : occurs "#" (variable_url owner repo) = false).
  { unfold variable_url. rewrite !occurs_app, Ho1, Hr1. reflexivity. }
  assert (Hquery : occurs "?" (variable_url owner repo) = false).
  { unfold variable_url. rewrite !occurs_app, Ho2, Hr2. reflexivity. }
  assert (Hsent : sent_url (variable_url owner repo) = variable_url owner repo).
  { unfold sent_url, splittag. now rewrite (rpartition_none _ _ Hhash). }
  split; [exact Hsent|].
  unfold written_variable. rewrite Hsent, (before_first_whole _ _ Hquery).
  unfold variable_url.
  assert (Hname : rpartition "/" "/actions/variables/SELF_HOSTED_ENABLED"
                  = Some ("/actions/variables", "SELF_HOSTED_ENABLED")) by reflexivity.
  apply (rpartition_app "/" repo) in Hname.
  apply (rpartition_app "/" "/") in Hname.
  apply (rpartition_app "/" owner) in Hname.
  apply (rpartition_app "/" "https://api.github.com/repos/") in Hname.
  now rewrite Hname.
Qed.

(** C8 (as amended).  Whatever the event, the environment, the secrets and
    the token, the only request with a body an invocation ever sends is one
    PATCH, sent at most once, whose body is the JSON text
    [{"value": "false"}] and whose URL is that of [SELF_HOSTED_ENABLED]
    built from the owner and the repository name of the environment as
    they are, not escaped; the only other request is a POST without body.
    When owner and name hold neither ['#'] nor ['?'], the URL is sent as
    built and the variable it names is [SELF_HOSTED_ENABLED].
    [disable_self_hosted_runners] itself writes that one value for every
    token, owner and repository. *)
Theorem handler_only_writes_false {C : Type} (w : World) (event : pyobj) (ctx : C) :
  let tr := snd (invoke w event ctx) in
  (writes tr = []
   \/ exists owner repo : string,
        environ w !! "GITHUB_OWNER" = Some owner
        /\ environ w !! "GITHUB_REPO" = Some repo
        /\ writes tr = [("PATCH", variable_url owner repo, value_false_body)]
        /\ (url_safe owner = true -> url_safe repo = true ->
            sent_url (variable_url owner repo) = variable_url owner repo
            /\ written_variable (variable_url owner repo) = "SELF_HOSTED_ENABLED"))
  /\ Forall (fun req : Request => data req = None -> method req = "POST") (requests tr)
  /\ (forall (token : pyobj) (owner repo : string) (w' : World) (tr' : list log_entry),
        writes (snd (disable_self_hosted_runners token owner repo w' tr'))
        = writes tr' ++ [("PATCH", variable_url owner repo, value_false_body)]).
Proof.
  cbv zeta. split; [|split].
  - run_cases w event ctx; observe; try (left; reflexivity).
    all: right; do 2 eexists.
    all: repeat match goal with
           | Hg : getenv _ _ = Ok _ |- _ => apply getenv_ok in Hg
           end.
    all: split; [eassumption|].
    all: split; [eassumption|].
    all: split; [reflexivity|apply variable_url_safe].
  - run_cases w event ctx; observe; repeat constructor; discriminate.
  - intros token owner repo w' tr'.
    rewrite disable_self_hosted_runners_unfold. cbv zeta.
    destruct (urlopen w' tr' _); cbn [snd]; unfold writes, requests;
      now rewrite !omap_app.
Qed.

(** C9.  [generate_jwt] is a function of the application id, the key and
    the reading of the clock: two calls that agree on these, in whatever
    worlds and after whatever histories, return the same outcome and add the
    same entries to the log. *)
Theorem generate_jwt_deterministic (app_id key : string) (w1 w2 : World)
        (tr1 tr2 : list log_entry) :
  time_time w1 tr1 = time_time w2 tr2 ->
  fst (generate_jwt app_id key w1 tr1) = fst (generate_jwt app_id key w2 tr2)
  /\ exists evs : list log_entry,
      snd (generate_jwt app_id key w1 tr1) = tr1 ++ evs
      /\ snd (generate_jwt app_id key w2 tr2) = tr2 ++ evs.
Proof.
  intros Htime. rewrite !generate_jwt_unfold. cbv zeta. cbn [fst snd].
  rewrite Htime. split; [reflexivity|]. eexists; split; reflexivity.
Qed.

(** C10.  When the naming prefix is [p], the fetches of the handler are, in
    order, the application id without decryption, the private key with
    decryption and the installation id without decryption (an initial part
    of these when a fetch fails); leaving the [decrypt] argument out is
    asking for no decryption. *)
Theorem handler_decrypts_only_the_key {C : Type} (w : World) (event : pyobj) (ctx : C)
        (p : string) :
  environ w !! "PREFIX" = Some p ->
  let out := fst (invoke w event ctx) in
  let tr := snd (invoke w event ctx) in
  let expected := [("/" +:+ p +:+ "/github-app-id", false);
                   ("/" +:+ p +:+ "/github-app-key", true);
                   ("/" +:+ p +:+ "/github-app-installation-id", false)] in
  fetches tr `prefix_of` expected
  /\ (is_ok out = true -> fetches tr = expected)
  /\ (forall (name : string) (w' : World) (tr' : list log_entry),
        get_ssm_parameter name None w' tr' = get_ssm_parameter name (Some false) w' tr').
Proof.
  intros Hprefix. apply getenv_ok in Hprefix. cbv zeta.
  split; [|split]; [| |reflexivity].
  - run_cases w event ctx; observe.
    all: match goal with
         | Hp : getenv _ "PREFIX" = _ |- _ => rewrite Hprefix in Hp
         end.
    all: try discriminate.
    all: match goal with
         | Hp : Ok _ = Ok _ |- _ => injection Hp as <-
         end.
    all: eexists; cbn [app]; reflexivity.
  - run_cases w event ctx; observe; cbn [is_ok]; try discriminate.
    match goal with
    | Hp : getenv _ "PREFIX" = _ |- _ => rewrite Hprefix in Hp; injection Hp as <-
    end.
    reflexivity.
Qed.

(** ** Further properties of the module *)

Ltac observe_all :=
  unfold printed, clients, clock_reads in *;
  observe;
  cbn [omap list_omap] in *.

(** Turn what a case says about the environment into lookups. *)
Ltac env_lookups :=
  repeat match goal with
         | Hg : getenv _ _ = Ok _ |- _ => apply getenv_ok in Hg
         end.

Lemma getenv_unset (w : World) (key : string) (r : result string) :
  environ w !! key = None -> getenv w key = r -> r = Raise (KeyError key).
Proof. unfold getenv. intros ->. congruence. Qed.

Lemma getenv_raise (w : World) (key : string) (e : exn) :
  getenv w key = Raise e -> environ w !! key = None /\ e = KeyError key.
Proof. unfold getenv. destruct (environ w !! key); [discriminate|]. now intros [= <-]. Qed.

(** Turn every answer of the environment into a lookup. *)
Ltac env_facts :=
  env_lookups;
  repeat match goal with
         | Hg : getenv _ _ = Raise _ |- _ => apply getenv_raise in Hg as [Hg ->]
         end.

(** X1.  When [PREFIX] is not set the handler raises [KeyError('PREFIX')]
    right after printing the alert: no other variable is read, no client
    is built, nothing is fetched, signed or sent. *)
Theorem handler_prefix_unset {C : Type} (w : World) (event : pyobj) (ctx : C) :
  environ w !! "PREFIX" = None ->
  invoke w event ctx
  = (Raise (KeyError "PREFIX"),
     [Printed ("Budget alert triggered: " +:+ json_dumps float_repr event);
      Getenv "PREFIX" (Raise (KeyError "PREFIX"))]).
Proof.
  intros Hunset.
  pose proof (handler_run_complete w event ctx) as Hrun.
  destruct (invoke w event ctx) as [out tr]. cbn [fst snd] in Hrun.
  destruct Hrun;
    repeat match goal with
           | Hpre : token_obtained _ _ _ _ |- _ => destruct Hpre
           end;
    match goal with
    | Hp : getenv _ "PREFIX" = _ |- _ =>
        apply (getenv_unset _ _ _ Hunset) in Hp; try discriminate Hp
    end.
  match goal with
  | Hp : Raise _ = Raise _ |- _ => injection Hp as ->
  end.
  reflexivity.
Qed.

(** X2.  When the prefix is set and [APP_AWS_REGION] is not, the handler
    raises [KeyError('APP_AWS_REGION')] at the first secret: no client is
    built, no parameter is fetched, nothing is signed or sent. *)
Theorem handler_region_unset {C : Type} (w : World) (event : pyobj) (ctx : C)
        (p : string) :
  environ w !! "PREFIX" = Some p ->
  environ w !! "APP_AWS_REGION" = None ->
  fst (invoke w event ctx) = Raise (KeyError "APP_AWS_REGION")
  /\ env_reads (snd (invoke w event ctx)) = ["PREFIX"; "APP_AWS_REGION"]
  /\ clients (snd (invoke w event ctx)) = []
  /\ fetches (snd (invoke w event ctx)) = []
  /\ minted (snd (invoke w event ctx)) = []
  /\ requests (snd (invoke w event ctx)) = [].
Proof.
  intros Hprefix Hunset. apply getenv_ok in Hprefix.
  run_cases w event ctx;
    try match goal with
        | Hp : getenv _ "PREFIX" = Raise _ |- _ => rewrite Hprefix in Hp; discriminate Hp
        end;
    repeat match goal with
           | Hr : getenv _ "APP_AWS_REGION" = _ |- _ =>
               apply (getenv_unset _ _ _ Hunset) in Hr; try discriminate Hr
           end.
  match goal with
  | Hr : Raise _ = Raise _ |- _ => injection Hr as ->
  end.
  observe_all. repeat split; reflexivity.
Qed.

(** Walk an explicit log up to the entry a lookup names. *)
Ltac scan_log Hi i :=
  cbn [lookup list_lookup] in Hi;
  first [ discriminate Hi
        | destruct i as [|i]; [cbn [lookup list_lookup] in Hi|scan_log Hi i] ].

(** X3.  The owner and the repository name are looked up only after the
    token exchange: in the log of every invocation, an entry for
    [GITHUB_OWNER] or [GITHUB_REPO] stands after a POST that was answered
    with a token.  So when one of the two is not set the handler fails and
    nothing is ever written, but a run in which the token exchange
    succeeded has sent that POST alone by then and ends with the
    [KeyError] of the first of the two variables that is missing. *)
Theorem handler_repository_unset {C : Type} (w : World) (event : pyobj) (ctx : C) :
  (forall (i : nat) (key : string) (answer : result string),
      snd (invoke w event ctx) !! i = Some (Getenv key answer) ->
      key = "GITHUB_OWNER" \/ key = "GITHUB_REPO" ->
      exists (j : nat) (req : Request) (resp : Response) (v : pyobj),
        (j < i)%nat
        /\ snd (invoke w event ctx) !! j = Some (Urlopen req (Ok resp))
        /\ method req = "POST"
        /\ response_token resp = Ok v)
  /\ (environ w !! "GITHUB_OWNER" = None \/ environ w !! "GITHUB_REPO" = None ->
      is_ok (fst (invoke w event ctx)) = false
      /\ writes (snd (invoke w event ctx)) = []
      /\ (forall (req : Request) (resp : Response) (v : pyobj),
            In (Urlopen req (Ok resp)) (snd (invoke w event ctx)) ->
            response_token resp = Ok v ->
            requests (snd (invoke w event ctx)) = [req]
            /\ method req = "POST"
            /\ fst (invoke w event ctx)
               = Raise (KeyError (match environ w !! "GITHUB_OWNER" with
                                  | None => "GITHUB_OWNER"
                                  | Some _ => "GITHUB_REPO"
                                  end)))).
Proof.
  split.
  - run_cases w event ctx; intros i key answer Hi Hkey; scan_log Hi i.
    all: injection Hi as <- <- || discriminate Hi.
    all: try (destruct Hkey as [Hkey|Hkey]; discriminate Hkey).
    all: exists 13%nat; do 3 eexists.
    all: split; [lia|].
    all: split; [reflexivity|].
    all: split; [reflexivity|eassumption].
  - intros Hunset.
    run_cases w event ctx; env_facts; observe_all.
    all: try (destruct Hunset; congruence).
    all: split; [reflexivity|split; [reflexivity|]].
    all: intros req resp' v Hin Htoken; in_log Hin; simplify_eq.
    all: try (cbn [exchange_outcome] in *; congruence).
    all: repeat split.
    all: match goal with
         | Ho : environ _ !! "GITHUB_OWNER" = _ |- _ => rewrite Ho
         end; reflexivity.
Qed.

(** X4.  When [jwt.encode] refuses to sign (a malformed key, say), the
    handler raises that very error: the three secrets have been fetched by
    then, but no request is sent to GitHub. *)
Theorem handler_signing_failure {C : Type} (w : World) (event : pyobj) (ctx : C)
        (payload : pyobj) (key algorithm : string) (e : exn) :
  In (JwtEncode payload key algorithm (Raise e)) (snd (invoke w event ctx)) ->
  fst (invoke w event ctx) = Raise e
  /\ requests (snd (invoke w event ctx)) = []
  /\ length (fetches (snd (invoke w event ctx))) = 3%nat.
Proof.
  run_cases w event ctx; intros Hin; in_log Hin; simplify_eq.
  all: try match goal with
         | Heq : jwt_encode _ _ _ = Ok _, Hin' : jwt_encode _ _ _ = Raise _ |- _ =>
             rewrite Heq in Hin'; discriminate Hin'
         end.
  match goal with
  | Heq : jwt_encode _ _ _ = Raise _ |- _ => rewrite Heq in *
  end.
  simplify_eq. observe_all. repeat split; reflexivity.
Qed.

(** X5.  Nothing is retried: an invocation sends no request, or the
    token-exchange POST alone, or that POST followed by the flag-write
    PATCH, and never anything else. *)
Theorem handler_requests_sequence {C : Type} (w : World) (event : pyobj) (ctx : C) :
  requests (snd (invoke w event ctx)) = []
  \/ (exists jwt_token installation_id : string,
        requests (snd (invoke w event ctx)) = [token_request jwt_token installation_id])
  \/ (exists (jwt_token installation_id : string) (token : pyobj) (owner repo : string),
        requests (snd (invoke w event ctx))
        = [token_request jwt_token installation_id; flag_request token owner repo]).
Proof.
  run_cases w event ctx; observe_all.
  all: first [ left; reflexivity
             | right; left; do 2 eexists; reflexivity
             | right; right; do 5 eexists; reflexivity ].
Qed.

(** X6.  Every request an invocation sends goes to
    [https://api.github.com/], carries a bearer credential, asks for
    [application/vnd.github+json] and pins the API version [2022-11-28];
    a request with a body declares it as [application/json]. *)
Theorem handler_requests_headers {C : Type} (w : World) (event : pyobj) (ctx : C) :
  Forall (fun req : Request =>
            String.prefix "https://api.github.com/" (full_url req) = true
            /\ (exists credential : string,
                  header "Authorization" (headers req) = Some ("Bearer " +:+ credential))
            /\ header "Accept" (headers req) = Some "application/vnd.github+json"
            /\ header "X-GitHub-Api-Version" (headers req) = Some "2022-11-28"
            /\ (data req <> None ->
                header "Content-Type" (headers req) = Some "application/json"))
         (requests (snd (invoke w event ctx))).
Proof.
  run_cases w event ctx; observe_all.
  all: repeat (apply List.Forall_cons;
               [split; [reflexivity|];
                split; [eexists; reflexivity|];
                split; [reflexivity|];
                split; [reflexivity|];
                intros Hdata; first [reflexivity | now contradiction Hdata]|]).
  all: apply List.Forall_nil.
Qed.

(** X7.  What is signed is built from the right secrets: whenever the log
    shows a call of [jwt.encode], its payload carries as issuer the value
    fetched under [/p/github-app-id] and the clock reading taken just
    before, its key is the value fetched with decryption under
    [/p/github-app-key], the algorithm is RS256, and it is the only
    assertion and the only clock reading of the invocation. *)
Theorem handler_assertion_inputs {C : Type} (w : World) (event : pyobj) (ctx : C)
        (payload : pyobj) (key algorithm : string) (r : result string) :
  In (JwtEncode payload key algorithm r) (snd (invoke w event ctx)) ->
  exists (p : string) (c1 c2 : Client) (id_response key_response : GetParameterResult)
         (t : float),
    environ w !! "PREFIX" = Some p
    /\ In (GetParameter c1 ("/" +:+ p +:+ "/github-app-id") false (Ok id_response))
          (snd (invoke w event ctx))
    /\ In (GetParameter c2 ("/" +:+ p +:+ "/github-app-key") true (Ok key_response))
          (snd (invoke w event ctx))
    /\ payload = jwt_payload (int_of_float t) (Value (Parameter_ id_response))
    /\ key = Value (Parameter_ key_response)
    /\ algorithm = "RS256"
    /\ r = jwt_encode payload key algorithm
    /\ minted (snd (invoke w event ctx)) = [payload]
    /\ clock_reads (snd (invoke w event ctx)) = [t].
Proof.
  run_cases w event ctx; intros Hin; in_log Hin; simplify_eq.
  all: env_facts.
  all: do 6 eexists.
  all: split; [eassumption|].
  all: split; [cbn [In]; auto 30|].
  all: split; [cbn [In]; auto 30|].
  all: observe_all; repeat split; reflexivity.
Qed.

(** X8.  The token exchange is built from the right pieces: a POST in the
    log is addressed to the installation whose id was fetched under
    [/p/github-app-installation-id], and its bearer credential is the
    assertion [jwt.encode] returned in this invocation. *)
Theorem handler_exchange_inputs {C : Type} (w : World) (event : pyobj) (ctx : C)
        (req : Request) (r : result Response) :
  In (Urlopen req r) (snd (invoke w event ctx)) ->
  method req = "POST" ->
  exists (p : string) (c : Client) (response : GetParameterResult)
         (payload : pyobj) (key jwt_token : string),
    environ w !! "PREFIX" = Some p
    /\ In (GetParameter c ("/" +:+ p +:+ "/github-app-installation-id") false (Ok response))
          (snd (invoke w event ctx))
    /\ In (JwtEncode payload key "RS256" (Ok jwt_token)) (snd (invoke w event ctx))
    /\ req = token_request jwt_token (Value (Parameter_ response))
    /\ full_url req = "https://api.github.com/app/installations/"
                      +:+ Value (Parameter_ response) +:+ "/access_tokens"
    /\ header "Authorization" (headers req) = Some ("Bearer " +:+ jwt_token).
Proof.
  run_cases w event ctx; intros Hin Hmethod; in_log Hin; simplify_eq.
  all: try discriminate Hmethod.
  all: env_facts.
  all: repeat match goal with
         | Heq : jwt_encode _ _ _ = Ok _ |- _ => rewrite Heq in *; clear Heq
         end.
  all: do 6 eexists.
  all: split; [eassumption|].
  all: split; [cbn [In]; auto 30|].
  all: split; [cbn [In]; auto 30|].
  all: repeat split.
Qed.

(** X9.  The flag write uses the token of this invocation and does not
    look at what kind of value it is: a PATCH in the log comes after a
    successful POST, and its credential is ["Bearer "] followed by the
    text of whatever stood under ["token"] in the answer to that POST (the
    string itself, or [str(...)] of another JSON value). *)
Theorem handler_flag_write_inputs {C : Type} (w : World) (event : pyobj) (ctx : C)
        (req : Request) (r : result Response) :
  In (Urlopen req r) (snd (invoke w event ctx)) ->
  method req = "PATCH" ->
  exists (exchange : Request) (resp : Response) (token : pyobj) (owner repo : string),
    In (Urlopen exchange (Ok resp)) (snd (invoke w event ctx))
    /\ method exchange = "POST"
    /\ response_token resp = Ok token
    /\ req = flag_request token owner repo
    /\ header "Authorization" (headers req)
       = Some ("Bearer " +:+ match token with
                             | JStr s => s
                             | other => builtin_str other
                             end).
Proof.
  run_cases w event ctx; intros Hin Hmethod; in_log Hin; simplify_eq.
  all: try discriminate Hmethod.
  all: eexists (token_request _ _), _, _, _, _.
  all: split; [cbn [In]; auto 30|].
  all: split; [reflexivity|].
  all: split; [eassumption|].
  all: split; reflexivity.
Qed.

(** X10.  The outcome of [get_installation_token], case by case: it
    returns a value exactly when [urlopen] answers, the body can be read
    and parses to a JSON object, and that object has a ["token"] key (the
    value of the key is returned as it is); an exception of [urlopen], of
    [read] or of [json.loads] comes out unchanged; an object without the
    key gives [KeyError('token')]; any other JSON value gives a
    [TypeError]. *)
Theorem get_installation_token_outcome (j i : string) (w : World) (tr : list log_entry) :
  let out := fst (get_installation_token j i w tr) in
  let answer := urlopen w tr (token_request j i) in
  (forall v : pyobj,
      out = Ok v <->
      exists (resp : Response) (body : list byte) (fields : list (string * pyobj)),
        answer = Ok resp /\ read resp = Ok body
        /\ json_loads body = Ok (JObj fields) /\ dict_get fields "token" = Some v)
  /\ (forall e : exn, answer = Raise e -> out = Raise e)
  /\ (forall (resp : Response) (e : exn),
        answer = Ok resp -> read resp = Raise e -> out = Raise e)
  /\ (forall (resp : Response) (body : list byte) (e : exn),
        answer = Ok resp -> read resp = Ok body -> json_loads body = Raise e ->
        out = Raise e)
  /\ (forall (resp : Response) (body : list byte) (fields : list (string * pyobj)),
        answer = Ok resp -> read resp = Ok body -> json_loads body = Ok (JObj fields) ->
        dict_get fields "token" = None ->
        out = Raise (KeyError "token"))
  /\ (forall (resp : Response) (body : list byte) (parsed : pyobj),
        answer = Ok resp -> read resp = Ok body -> json_loads body = Ok parsed ->
        (forall fields : list (string * pyobj), parsed <> JObj fields) ->
        exists msg : string, out = Raise (TypeError msg)).
Proof.
  cbv zeta. rewrite get_installation_token_unfold. cbv zeta. cbn [fst].
  destruct (urlopen w tr (token_request j i)) as [resp|e0];
    cbn [exchange_outcome]; unfold response_token.
  2: { split; [intros v; split;
                [congruence|intros (r' & b' & f' & Ha & _); congruence]|].
       repeat split; intros; congruence. }
  destruct (read resp) as [body|e1] eqn:Eread.
  2: { split; [intros v; split;
                [congruence|intros (r' & b' & f' & Ha & Hr & _); congruence]|].
       repeat split; intros; congruence. }
  destruct (json_loads body) as [parsed|e2] eqn:Eloads.
  2: { split; [intros v; split;
                [congruence|intros (r' & b' & f' & Ha & Hr & Hl & _); congruence]|].
       repeat split; intros; congruence. }
  split.
  { intros v. split.
    - intros Hget. exists resp, body.
      destruct parsed; cbn [getitem] in Hget; try discriminate Hget.
      destruct (dict_get fields "token") eqn:Hlookup; [|discriminate Hget].
      exists fields. injection Hget as ->. auto.
    - intros (resp' & body' & fields & [= <-] & Hread & Hloads & Hlookup).
      assert (body' = body) as -> by congruence.
      assert (parsed = JObj fields) as -> by congruence.
      cbn [getitem]. now rewrite Hlookup. }
  split; [intros; congruence|].
  split; [intros; congruence|].
  split; [intros; congruence|].
  split.
  - intros resp' body' fields [= <-] Hread Hloads Hlookup.
    assert (body' = body) as -> by congruence.
    assert (parsed = JObj fields) as -> by congruence.
    cbn [getitem]. now rewrite Hlookup.
  - intros resp' body' parsed' [= <-] Hread Hloads Hother.
    assert (body' = body) as -> by congruence.
    assert (parsed' = parsed) as -> by congruence.
    destruct parsed; cbn [getitem]; eauto.
    now contradiction (Hother fields).
Qed.

(** X11.  What an invocation prints: always the alert line with the event
    first; nothing more when it fails; and when it succeeds exactly two
    more lines, the status of the answer to the flag write and the closing
    line naming owner and repository.  No secret, assertion or token is
    ever printed, and a failure is not reported by a line of its own. *)
Theorem handler_printed_lines {C : Type} (w : World) (event : pyobj) (ctx : C) :
  let alert := "Budget alert triggered: " +:+ json_dumps float_repr event in
  (is_ok (fst (invoke w event ctx)) = false
   /\ printed (snd (invoke w event ctx)) = [alert])
  \/ (exists (owner repo : string) (req : Request) (resp : Response),
        fst (invoke w event ctx) = Ok success_response
        /\ environ w !! "GITHUB_OWNER" = Some owner
        /\ environ w !! "GITHUB_REPO" = Some repo
        /\ In (Urlopen req (Ok resp)) (snd (invoke w event ctx))
        /\ method req = "PATCH"
        /\ printed (snd (invoke w event ctx))
           = [alert;
              "GitHub variable updated: " +:+ pretty (status resp);
              "Self-hosted runners disabled for " +:+ owner +:+ "/" +:+ repo
              +:+ ". Manual reset required."]).
Proof.
  cbv zeta. run_cases w event ctx; env_facts; observe_all.
  all: try (left; split; reflexivity).
  right. eexists _, _, (flag_request _ _ _), _.
  split; [reflexivity|].
  split; [eassumption|].
  split; [eassumption|].
  split; [cbn [In]; auto 30|].
  split; reflexivity.
Qed.

(** X12.  Nothing of the parameter-store access is shared between the
    fetches: with the region set to [region], a client for the service
    [ssm] in that region is built anew before each fetch (three clients in
    a successful run), and every fetch goes through such a client. *)
Theorem handler_ssm_clients {C : Type} (w : World) (event : pyobj) (ctx : C)
        (region : string) :
  environ w !! "APP_AWS_REGION" = Some region ->
  clients (snd (invoke w event ctx))
    `prefix_of` [("ssm", region); ("ssm", region); ("ssm", region)]
  /\ (is_ok (fst (invoke w event ctx)) = true ->
      clients (snd (invoke w event ctx))
      = [("ssm", region); ("ssm", region); ("ssm", region)])
  /\ (length (fetches (snd (invoke w event ctx)))
      <= length (clients (snd (invoke w event ctx))))%nat
  /\ (forall (c : Client) (name : string) (flag : bool) (r : result GetParameterResult),
        In (GetParameter c name flag r) (snd (invoke w event ctx)) ->
        c = {| service_name := "ssm"; region_name := region |}).
Proof.
  intros Hregion.
  run_cases w event ctx; env_facts.
  all: repeat match goal with
         | Hr : environ _ !! "APP_AWS_REGION" = _ |- _ =>
             rewrite Hregion in Hr; try discriminate Hr;
             try (injection Hr as <-)
         end.
  all: observe_all.
  all: split; [eexists; cbn [app]; reflexivity|].
  all: split; [cbn [is_ok]; first [discriminate | reflexivity]|].
  all: split; [cbn [length]; lia|].
  all: intros c name flag r0 Hin; in_log Hin; simplify_eq; reflexivity.
Qed.
(** *** [get_ssm_parameter], step by step *)


Lemma clients_app (a b : list log_entry) : clients (a ++ b) = clients a ++ clients b.
Proof. apply omap_app. Qed.

Lemma fetches_app (a b : list log_entry) : fetches (a ++ b) = fetches a ++ fetches b.
Proof. apply omap_app. Qed.

(** X14.  [get_ssm_parameter] by its outcomes: without a region it raises
    [KeyError('APP_AWS_REGION')] and neither builds a client nor asks the
    store; when the client cannot be built it raises that error and does
    not ask the store; it asks the store at most once; and a value it
    returns is the [Value] of the parameter the store answered with, under
    the name and decrypt flag it was called with, through an [ssm] client
    of the configured region. *)
Theorem get_ssm_parameter_outcome (name : string) (decrypt : option bool)
        (w : World) (tr : list log_entry) :
  let flag := match decrypt with Some b => b | None => false end in
  let out := fst (get_ssm_parameter name decrypt w tr) in
  let tr' := snd (get_ssm_parameter name decrypt w tr) in
  (environ w !! "APP_AWS_REGION" = None ->
   out = Raise (KeyError "APP_AWS_REGION")
   /\ clients tr' = clients tr /\ fetches tr' = fetches tr)
  /\ (forall (region : string) (e : exn),
        environ w !! "APP_AWS_REGION" = Some region ->
        boto3_client_error w (tr ++ [Getenv "APP_AWS_REGION" (Ok region)]) "ssm" region
        = Some e ->
        out = Raise e /\ fetches tr' = fetches tr)
  /\ (length (fetches tr') <= S (length (fetches tr)))%nat
  /\ (forall v : string,
        out = Ok v ->
        exists (region : string) (response : GetParameterResult),
          environ w !! "APP_AWS_REGION" = Some region
          /\ tr' = tr ++ [Getenv "APP_AWS_REGION" (Ok region);
                          Boto3Client "ssm" region (Ok (ssm_client region));
                          GetParameter (ssm_client region) name flag (Ok response)]
          /\ v = Value (Parameter_ response)).
Proof.
  cbv zeta.
  split; [|split; [|split]].
  - intros Hunset.
    destruct (get_ssm_parameter_run name decrypt w tr) as (evs & Htr & Hshape).
    destruct (get_ssm_parameter name decrypt w tr) as [out tr'].
    cbn [fst snd] in *. subst tr'.
    destruct Hshape; env_facts; try congruence.
    rewrite clients_app, fetches_app. cbn. rewrite !app_nil_r. auto.
  - intros region e Hregion Hclient. apply getenv_ok in Hregion.
    assert (Hmk : make_client w (tr ++ [Getenv "APP_AWS_REGION" (Ok region)])
                              "ssm" region = Raise e)
      by (unfold make_client; now rewrite Hclient).
    unfold get_ssm_parameter, boto3_client.
    rewrite bind_unfold, environ_getitem_unfold, Hregion.
    rewrite bind_unfold, call_unfold, Hmk.
    cbv beta iota. cbn [fst snd]. rewrite !fetches_app. cbn. rewrite !app_nil_r. auto.
  - destruct (get_ssm_parameter_run name decrypt w tr) as (evs & Htr & Hshape).
    destruct (get_ssm_parameter name decrypt w tr) as [out tr'].
    cbn [fst snd] in *. subst tr'.
    rewrite fetches_app, length_app.
    destruct Hshape; cbn; lia.
  - intros v Hout.
    destruct (get_ssm_parameter_run name decrypt w tr) as (evs & Htr & Hshape).
    destruct (get_ssm_parameter name decrypt w tr) as [out tr'].
    cbn [fst snd] in *. subst tr' out.
    inversion Hshape; subst. env_facts. eauto.
Qed.


End Properties.

(** ** The model on concrete invocations *)

#[local] Existing Instance Demo.runtime.

(** The end-to-end scenario: secrets in place, GitHub answering 201 with a
    token and 204 to the flag write. *)
Example demo_end_to_end :
  fst (invoke Demo.happy Demo.alert tt) = Ok success_response
  /\ requests (snd (invoke Demo.happy Demo.alert tt))
     = [token_request Demo.assertion "42"; flag_request (JStr "tok") "acme" "ci"]
  /\ errors (snd (invoke Demo.happy Demo.alert tt)) = [].
Proof. repeat split; vm_compute; reflexivity. Qed.

(** A token exchange answered without a token stops the handler with
    [KeyError], before any write. *)
Example demo_tokenless :
  fst (invoke Demo.tokenless Demo.alert tt) = Raise (KeyError "token")
  /\ writes (snd (invoke Demo.tokenless Demo.alert tt)) = [].
Proof. split; vm_compute; reflexivity. Qed.

(** A clock reading of 1000.5 is cut to 1000 whole seconds. *)
Example demo_fractional_clock :
  minted (snd (generate_jwt "1" "PEM" Demo.happy_later []))
  = [JObj [("iat", JInt 940); ("exp", JInt 1600); ("iss", JStr "1")]].
Proof. vm_compute. reflexivity. Qed.

(** C1, the claim as stated fails: at clock reading 1000 the payload has
    issued-at 940 and expiry 1600, which is not 940 + 600. *)
Lemma generate_jwt_window_600_counterexample :
  exists payload : json,
    minted (snd (generate_jwt "1" "PEM" Demo.happy [])) = [payload]
    /\ int_of_float (time_time Demo.happy []) = 1000
    /\ getitem payload "iat" = Ok (JInt 940)
    /\ getitem payload "exp" = Ok (JInt 1600)
    /\ ~ jwt_window 1000 600 payload.
Proof.
  exists (JObj [("iat", JInt 940); ("exp", JInt 1600); ("iss", JStr "1")]).
  repeat split; try (vm_compute; reflexivity).
  intros (iat & exp & Hiat & Hexp & -> & ->).
  vm_compute in Hiat, Hexp. congruence.
Qed.

(** C2 at a concrete invocation: GitHub refuses the token exchange with
    status 401. *)
Lemma handler_exchange_failure_witness :
  fst (invoke Demo.refused Demo.alert tt) = Raise (HTTPError 401)
  /\ requests (snd (invoke Demo.refused Demo.alert tt))
     = [token_request Demo.assertion "42"]
  /\ writes (snd (invoke Demo.refused Demo.alert tt)) = []
  /\ Forall (fun q : Request => method q <> "PATCH")
            (requests (snd (invoke Demo.refused Demo.alert tt))).
Proof.
  apply (handler_exchange_failure Demo.refused Demo.alert tt
           (token_request Demo.assertion "42") (Raise (HTTPError 401)) (HTTPError 401)).
  - vm_compute. repeat (first [left; reflexivity | right]).
  - reflexivity.
  - left. reflexivity.
Defined.

(** C3 at a concrete invocation: the private key is missing from the
    parameter store. *)
Lemma handler_secret_failure_witness :
  fst (invoke Demo.keyless Demo.alert tt) = Raise (ClientError "ParameterNotFound")
  /\ requests (snd (invoke Demo.keyless Demo.alert tt)) = []
  /\ minted (snd (invoke Demo.keyless Demo.alert tt)) = []
  /\ (forall t : float, ~ In (TimeTime t) (snd (invoke Demo.keyless Demo.alert tt))).
Proof.
  apply (handler_secret_failure Demo.keyless Demo.alert tt
           (ClientError "ParameterNotFound")).
  left. exists (ssm_client "us-east-1"), "/demo/github-app-key", true.
  vm_compute. repeat (first [left; reflexivity | right]).
Defined.

(** C7 at a concrete invocation: the prefix is [demo]. *)
Lemma handler_reads_witness :
  map fst (fetches (snd (invoke Demo.happy Demo.alert tt)))
  = secret_names "demo"
  /\ In "GITHUB_OWNER" (env_reads (snd (invoke Demo.happy Demo.alert tt)))
  /\ In "GITHUB_REPO" (env_reads (snd (invoke Demo.happy Demo.alert tt))).
Proof.
  assert (Hprefix : environ Demo.happy !! "PREFIX" = Some "demo")
    by (vm_compute; reflexivity).
  destruct (handler_reads Demo.happy Demo.alert tt "demo" Hprefix)
    as (_ & _ & Hok & _).
  apply Hok. vm_compute. reflexivity.
Defined.

(** C9 at concrete calls: two different worlds and histories, the same
    clock reading. *)
Lemma generate_jwt_deterministic_witness :
  fst (generate_jwt "1" "PEM" Demo.happy [])
  = fst (generate_jwt "1" "PEM" Demo.bare [Printed "earlier"])
  /\ exists evs : list log_entry,
      snd (generate_jwt "1" "PEM" Demo.happy []) = [] ++ evs
      /\ snd (generate_jwt "1" "PEM" Demo.bare [Printed "earlier"])
         = [Printed "earlier"] ++ evs.
Proof.
  apply (generate_jwt_deterministic "1" "PEM" Demo.happy Demo.bare
           [] [Printed "earlier"]).
  reflexivity.
Defined.

(** C10 at a concrete invocation: the prefix is [demo]. *)
Lemma handler_decrypts_only_the_key_witness :
  fetches (snd (invoke Demo.happy Demo.alert tt))
  = [("/demo/github-app-id", false); ("/demo/github-app-key", true);
     ("/demo/github-app-installation-id", false)].
Proof.
  assert (Hprefix : environ Demo.happy !! "PREFIX" = Some "demo")
    by (vm_compute; reflexivity).
  destruct (handler_decrypts_only_the_key Demo.happy Demo.alert tt "demo" Hprefix)
    as (_ & Hok & _).
  apply Hok. vm_compute. reflexivity.
Defined.

(** ** The amended claim on concrete invocations *)

(** C8, the claim as stated fails: with the repository name
    [ci/actions/variables/OTHER_VAR#] the handler succeeds, and the one
    request it writes with is sent to the URL of the variable [OTHER_VAR]:
    what follows the ['#'] is a fragment, which is not sent. *)
Lemma handler_writes_other_variable_counterexample :
  fst (invoke Demo.hijacked Demo.alert tt) = Ok success_response
  /\ exists url : string,
      writes (snd (invoke Demo.hijacked Demo.alert tt))
      = [("PATCH", url, value_false_body)]
      /\ sent_url url = "https://api.github.com/repos/acme/ci/actions/variables/OTHER_VAR"
      /\ written_variable url = "OTHER_VAR"
      /\ written_variable url <> "SELF_HOSTED_ENABLED".
Proof.
  split; [vm_compute; reflexivity|].
  exists (variable_url "acme" "ci/actions/variables/OTHER_VAR#").
  repeat split; try (vm_compute; reflexivity).
  vm_compute. discriminate.
Qed.

(** C8 as amended, at a concrete invocation: in the end-to-end scenario the
    one write names [SELF_HOSTED_ENABLED]. *)
Lemma handler_only_writes_false_witness :
  writes (snd (invoke Demo.happy Demo.alert tt))
  = [("PATCH", variable_url "acme" "ci", value_false_body)]
  /\ written_variable (variable_url "acme" "ci") = "SELF_HOSTED_ENABLED".
Proof.
  destruct (handler_only_writes_false Demo.happy Demo.alert tt)
    as ([Hnone|(owner & repo & Howner & Hrepo & Hwrites & Hsafe)] & _).
  - vm_compute in Hnone. discriminate Hnone.
  - vm_compute in Howner, Hrepo.
    injection Howner as <-. injection Hrepo as <-.
    split; [exact Hwrites|].
    apply Hsafe; reflexivity.
Defined.

(** ** The further properties on concrete invocations *)

(** X1 at a concrete invocation: the prefix is missing. *)
Lemma handler_prefix_unset_witness :
  invoke Demo.no_prefix Demo.alert tt
  = (Raise (KeyError "PREFIX"),
     [Printed ("Budget alert triggered: " +:+ json_dumps float_repr Demo.alert);
      Getenv "PREFIX" (Raise (KeyError "PREFIX"))]).
Proof.
  apply (handler_prefix_unset Demo.no_prefix Demo.alert tt).
  vm_compute. reflexivity.
Defined.

(** X2 at a concrete invocation: the region is missing. *)
Lemma handler_region_unset_witness :
  fst (invoke Demo.no_region Demo.alert tt) = Raise (KeyError "APP_AWS_REGION")
  /\ env_reads (snd (invoke Demo.no_region Demo.alert tt)) = ["PREFIX"; "APP_AWS_REGION"]
  /\ clients (snd (invoke Demo.no_region Demo.alert tt)) = []
  /\ fetches (snd (invoke Demo.no_region Demo.alert tt)) = []
  /\ minted (snd (invoke Demo.no_region Demo.alert tt)) = []
  /\ requests (snd (invoke Demo.no_region Demo.alert tt)) = [].
Proof.
  apply (handler_region_unset Demo.no_region Demo.alert tt "demo").
  - vm_compute. reflexivity.
  - vm_compute. reflexivity.
Defined.

(** X3 at a concrete invocation: the owner is missing, the token exchange
    has been made. *)
Lemma handler_repository_unset_witness :
  requests (snd (invoke Demo.no_owner Demo.alert tt))
  = [token_request Demo.assertion "42"]
  /\ method (token_request Demo.assertion "42") = "POST"
  /\ fst (invoke Demo.no_owner Demo.alert tt) = Raise (KeyError "GITHUB_OWNER").
Proof.
  assert (Hunset : environ Demo.no_owner !! "GITHUB_OWNER" = None
                   \/ environ Demo.no_owner !! "GITHUB_REPO" = None)
    by (left; vm_compute; reflexivity).
  destruct (handler_repository_unset Demo.no_owner Demo.alert tt) as (_ & Hmissing).
  destruct (Hmissing Hunset) as (_ & _ & Hlate).
  apply (Hlate (token_request Demo.assertion "42")
               (Build_Response 201 (Ok (str_encode (Demo.token_json "tok"))))
               (JStr "tok")).
  - vm_compute. repeat (first [left; reflexivity | right]).
  - vm_compute. reflexivity.
Defined.

(** X4 at a concrete invocation: the stored key is empty and the signer
    refuses it. *)
Lemma handler_signing_failure_witness :
  fst (invoke Demo.bad_key Demo.alert tt)
  = Raise (InvalidKeyError "Could not parse the provided public key.")
  /\ requests (snd (invoke Demo.bad_key Demo.alert tt)) = []
  /\ length (fetches (snd (invoke Demo.bad_key Demo.alert tt))) = 3%nat.
Proof.
  apply (handler_signing_failure Demo.bad_key Demo.alert tt
           (jwt_payload 1000 "1") EmptyString "RS256"
           (InvalidKeyError "Could not parse the provided public key.")).
  vm_compute. repeat (first [left; reflexivity | right]).
Defined.

(** X7 at a concrete invocation: the end-to-end scenario signs one payload,
    issued in the name of the stored application id. *)
Lemma handler_assertion_inputs_witness :
  minted (snd (invoke Demo.happy Demo.alert tt)) = [jwt_payload 1000 "1"].
Proof.
  assert (Hin : In (JwtEncode (jwt_payload 1000 "1") "PEM" "RS256" (Ok Demo.assertion))
                   (snd (invoke Demo.happy Demo.alert tt)))
    by (vm_compute; repeat (first [left; reflexivity | right])).
  destruct (handler_assertion_inputs Demo.happy Demo.alert tt _ _ _ _ Hin)
    as (p & c1 & c2 & r1 & r2 & t & _ & _ & _ & _ & _ & _ & _ & Hminted & _).
  exact Hminted.
Defined.

(** X8 at a concrete invocation: the POST of the end-to-end scenario. *)
Lemma handler_exchange_inputs_witness :
  exists (payload : json) (key jwt_token : string) (response : GetParameterResult),
    In (JwtEncode payload key "RS256" (Ok jwt_token))
       (snd (invoke Demo.happy Demo.alert tt))
    /\ token_request Demo.assertion "42"
       = token_request jwt_token (Value (Parameter_ response)).
Proof.
  assert (Hin : In (Urlopen (token_request Demo.assertion "42")
                            (Demo.github (token_request Demo.assertion "42")))
                   (snd (invoke Demo.happy Demo.alert tt)))
    by (vm_compute; repeat (first [left; reflexivity | right])).
  destruct (handler_exchange_inputs Demo.happy Demo.alert tt _ _ Hin eq_refl)
    as (p & c & response & payload & key & jwt_token & _ & _ & Hsigned & Hreq & _).
  exists payload, key, jwt_token, response. split; assumption.
Defined.

(** X9 at a concrete invocation: the PATCH of the end-to-end scenario
    follows a successful POST. *)
Lemma handler_flag_write_inputs_witness :
  exists (exchange : Request) (resp : Response),
    In (Urlopen exchange (Ok resp)) (snd (invoke Demo.happy Demo.alert tt))
    /\ method exchange = "POST".
Proof.
  assert (Hin : In (Urlopen (flag_request (JStr "tok") "acme" "ci")
                            (Demo.github (flag_request (JStr "tok") "acme" "ci")))
                   (snd (invoke Demo.happy Demo.alert tt)))
    by (vm_compute; repeat (first [left; reflexivity | right])).
  destruct (handler_flag_write_inputs Demo.happy Demo.alert tt _ _ Hin eq_refl)
    as (exchange & resp & token & owner & repo & Hlog & Hmethod & _).
  exists exchange, resp. split; assumption.
Defined.

(** X12 at a concrete invocation: three clients for [us-east-1]. *)
Lemma handler_ssm_clients_witness :
  clients (snd (invoke Demo.happy Demo.alert tt))
  = [("ssm", "us-east-1"); ("ssm", "us-east-1"); ("ssm", "us-east-1")].
Proof.
  assert (Hregion : environ Demo.happy !! "APP_AWS_REGION" = Some "us-east-1")
    by (vm_compute; reflexivity).
  destruct (handler_ssm_clients Demo.happy Demo.alert tt "us-east-1" Hregion)
    as (_ & Hok & _).
  apply Hok. vm_compute. reflexivity.
Defined.

